(** * Distributed-training orchestration of the SageMaker TensorFlow container

    A shallow embedding of [src/sagemaker_tensorflow_container/training.py]:
    the [TF_CONFIG] topology builders, the process launchers, the loop that
    waits for the master to go down, the top-level [train] and the advisory
    check of the model directory.

    Pure Python functions are Rocq functions into [result] (a value or a
    raised exception).  Functions that log, start processes, sleep or call
    the external entry-point runner live in the monad [M], which threads the
    chronological list of observable events and returns a value, a raised
    exception, or nothing when the loop was cut off by the fuel bound. *)

From Stdlib Require Import String Ascii.
From stdpp Require Import base option list gmap strings fin_maps pretty.

Local Open Scope string_scope.
Local Open Scope list_scope.
Local Open Scope nat_scope.

(** ** Python values and exceptions *)

(** The exceptions that the module can raise or let through;
    [CalledProcessError] is the one of [subprocess.check_call], and
    [ExternalError] stands for any other exception of a collaborator. *)
Inductive py_error : Type :=
  | ValueError (msg : string)
  | IndexError (msg : string)
  | UnboundLocalError (var : string)
  | CalledProcessError
  | ExternalError (msg : string).

(** A pure Python computation: it returns or it raises. *)
Inductive result (A : Type) : Type :=
  | Ok (a : A)
  | Raise (e : py_error).
Arguments Ok {A} a.
Arguments Raise {A} e.

#[global] Instance result_ret : MRet result := λ A a, Ok a.
#[global] Instance result_bind : MBind result := λ A B f r,
  match r with
  | Ok a => f a
  | Raise e => Raise e
  end.

(** The JSON values a framework parameter can hold, with Python truthiness. *)
Inductive pyval : Type :=
  | PyNone
  | PyBool (b : bool)
  | PyInt (z : Z)
  | PyStr (s : string).

Definition truthy (v : pyval) : bool :=
  match v with
  | PyNone => false
  | PyBool b => b
  | PyInt z => negb (z =? 0)%Z
  | PyStr s => negb (String.eqb s EmptyString)
  end.

(** [a and b]: the first operand when it is falsy, the second otherwise. *)
Definition py_and (a b : pyval) : pyval := if truthy a then b else a.

(** [l.index(x)]: the first position of [x], [ValueError] when absent.  The
    message of Python names the value; the text kept here does not. *)
Fixpoint list_index (x : string) (l : list string) : option nat :=
  match l with
  | [] => None
  | y :: l' => if decide (x = y) then Some 0 else S <$> list_index x l'
  end.

Definition py_index (x : string) (l : list string) : result nat :=
  match list_index x l with
  | Some i => Ok i
  | None => Raise (ValueError "x not in list")
  end.

(** [l[0]]. *)
Definition py_first (l : list string) : result string :=
  match l with
  | h :: _ => Ok h
  | [] => Raise (IndexError "list index out of range")
  end.

(** ** Cluster topology *)

Record task_desc : Type := Task { task_index : nat; task_type : string }.

Record tf_config : Type := TfConfig {
  cluster : gmap string (list string);
  environment : string;
  task : task_desc
}.

(** ["{}:{}".format(host, port)] *)
Definition format_host_port (host port : string) : string :=
  host +:+ ":" +:+ port.

Definition host_addresses (hosts : list string) (port : string) : list string :=
  (λ host, format_host_port host port) <$> hosts.

Definition _is_host_master (hosts : list string) (current_host : string) : result bool :=
  h0 ← py_first hosts; mret (bool_decide (current_host = h0)).

(** Truthiness of [ps], which is the host list or [None]. *)
Definition truthy_hosts (ps : option (list string)) : bool :=
  match ps with
  | Some (_ :: _) => true
  | _ => false
  end.

Definition _build_tf_config_for_ps
    (hosts : list string) (current_host : string) (ps_task : bool) : result tf_config :=
  let masters := take 1 hosts in
  let workers := drop 1 hosts in
  let ps := if decide (1 < length hosts) then Some hosts else None in
  let c0 : gmap string (list string) := {[ "master" := host_addresses masters "2222" ]} in
  let c1 := if truthy_hosts ps
            then <[ "ps" := host_addresses (default [] ps) "2223" ]> c0 else c0 in
  let c2 := if truthy_hosts (Some workers)
            then <[ "worker" := host_addresses workers "2222" ]> c1 else c1 in
  t ← (if ps_task then
         match ps with
         | None =>
             Raise (ValueError
               "Cannot have a ps task if there are no parameter servers in the cluster")
         | Some ps_hosts => i ← py_index current_host ps_hosts; mret (Task i "ps")
         end
       else
         is_master ← _is_host_master hosts current_host;
         if is_master : bool then mret (Task 0 "master")
         else i ← py_index current_host workers; mret (Task i "worker"));
  mret (TfConfig c2 "cloud" t).

Definition _build_tf_config_for_mwms
    (hosts : list string) (current_host : string) : result tf_config :=
  let workers := hosts in
  let c : gmap string (list string) := <[ "worker" := host_addresses workers "8890" ]> ∅ in
  i ← py_index current_host workers;
  mret (TfConfig c "cloud" (Task i "worker")).

(** ** Observable events and the orchestration monad *)

Inductive RunnerType : Type :=
  | ProcessRunnerType
  | MPIRunnerType
  | SMDataParallelRunnerType.

(** A value of the environment mapping handed to the entry point: a plain
    string, or [json.dumps] of a topology (kept unserialised). *)
Inductive env_value : Type :=
  | EnvStr (s : string)
  | EnvJson (c : tf_config).

(** The keyword arguments of [entry_point.run]. *)
Record entry_point_call : Type := EntryPointCall {
  uri : string;
  user_entry_point : string;
  args : list string;
  env_vars : gmap string env_value;
  capture_error : bool;
  runner_type : RunnerType
}.

Inductive level : Type := INFO | WARNING.

(** A log record keeps the format string and the arguments of [format]
    apart; the other events are the calls into TensorFlow,
    [multiprocessing], [entry_point], [subprocess] and [time]. *)

Inductive event : Type :=
  | EvLog (lvl : level) (template : string) (fmt_args : list string)
  | EvTfServer (cluster_spec : gmap string (list string))
               (job_name : string) (index : nat) (gpu_count : nat)
  | EvProcessStart
  | EvEntryPointRun (call : entry_point_call)
  | EvEntryPointReturn
  | EvCheckCall (cmd : list string)
  | EvSleep (seconds : nat).

(** What the external collaborators answer: [None] is a normal return. *)
Record world : Type := World {
  tf_server_outcome : gmap string (list string) → nat → option py_error;
  entry_point_outcome : entry_point_call → option py_error;
  check_call_outcome : nat → option py_error
}.

Record state : Type := State {
  trace : list event;
  probes : nat
}.

Definition initial_state : state := State [] 0.

(** [None] as the answer means that the fuel ran out: the call is still
    running. *)
Definition M (A : Type) : Type := state → state * option (result A).

#[global] Instance M_ret : MRet M := λ A a s, (s, Some (Ok a)).
#[global] Instance M_bind : MBind M := λ A B f m s,
  match m s with
  | (s', Some (Ok a)) => f a s'
  | (s', Some (Raise e)) => (s', Some (Raise e))
  | (s', None) => (s', None)
  end.

Definition raise {A : Type} (e : py_error) : M A := λ s, (s, Some (Raise e)).
Definition out_of_fuel {A : Type} : M A := λ s, (s, None).
Definition lift {A : Type} (r : result A) : M A := λ s, (s, Some r).
Definition emit (e : event) : M unit :=
  λ s, (State (trace s ++ [e]) (probes s), Some (Ok ())).

(** [try: body except <handled>: ...]; [handler e = None] lets [e] through. *)
Definition try_except {A : Type} (body : M A) (handler : py_error → option (M A)) : M A :=
  λ s, match body s with
       | (s', Some (Raise e)) =>
           match handler e with
           | Some h => h s'
           | None => (s', Some (Raise e))
           end
       | r => r
       end.

(** [for x in l: acc = body x acc] *)
Fixpoint for_each {A S : Type} (l : list A) (body : A → S → M S) (acc : S) : M S :=
  match l with
  | [] => mret acc
  | x :: l' => acc' ← body x acc; for_each l' body acc'
  end.

(** Reading a local variable that may not have been assigned. *)
Definition read_local {A : Type} (name : string) (v : option A) : M A :=
  match v with
  | Some a => mret a
  | None => raise (UnboundLocalError name)
  end.

Definition logger_info (template : string) (fmt_args : list string) : M unit :=
  emit (EvLog INFO template fmt_args).
Definition logger_warn (template : string) (fmt_args : list string) : M unit :=
  emit (EvLog WARNING template fmt_args).
Definition time_sleep (seconds : nat) : M unit := emit (EvSleep seconds).

Definition subprocess_check_call (w : world) (cmd : list string) : M unit :=
  λ s, (State (trace s ++ [EvCheckCall cmd]) (S (probes s)),
        Some (match check_call_outcome w (probes s) with
              | None => Ok ()
              | Some e => Raise e
              end)).

Definition entry_point_run (w : world) (call : entry_point_call) : M unit :=
  emit (EvEntryPointRun call);;
  match entry_point_outcome w call with
  | Some e => raise e
  | None => emit EvEntryPointReturn
  end.

(** ** The training environment (sagemaker_training.environment.Environment) *)

Record Environment : Type := Env {
  additional_framework_parameters : gmap string pyval;
  hosts : list string;
  current_host : string;
  distribution_hosts : list string;
  current_instance_group : string;
  distribution_instance_groups : list string;
  module_dir : string;
  env_user_entry_point : string;
  to_env_vars : gmap string string
}.

Definition SAGEMAKER_PARAMETER_SERVER_ENABLED : string :=
  "sagemaker_parameter_server_enabled".
Definition SAGEMAKER_DISTRIBUTED_DATAPARALLEL_ENABLED : string :=
  "sagemaker_distributed_dataparallel_enabled".
Definition SAGEMAKER_MULTI_WORKER_MIRRORED_STRATEGY_ENABLED : string :=
  "sagemaker_multi_worker_mirrored_strategy_enabled".
Definition MODEL_DIR : string := "/opt/ml/model".

(** [d.get(key, dflt)] *)
Definition dict_get (d : gmap string pyval) (key : string) (dflt : pyval) : pyval :=
  default dflt (d !! key).

(** ** Process launchers *)

Definition msg_running_ps : string :=
  "Running distributed training job with parameter servers".
Definition msg_running_mwms : string :=
  "Running distributed training job with multi_worker_mirrored_strategy setup".
Definition msg_launching_ps : string := "Launching parameter server process".
Definition msg_launching_worker : string := "Launching worker process".
Definition msg_master_up : string := "master {} is still up, waiting for it to exit".
Definition msg_master_down : string := "master {} is down, stopping parameter server".

(** [_run_ps]: the cluster spec is the cluster itself, the server is
    created for job [ps] with the GPU device count set to 0, and
    [server.join] is started in a process of its own. *)
Definition _run_ps (w : world) (env : Environment)
    (cl : gmap string (list string)) : M unit :=
  logger_info msg_running_ps [];;
  idx ← lift (py_index (current_host env) (hosts env));
  emit (EvTfServer cl "ps" idx 0);;
  match tf_server_outcome w cl idx with
  | Some e => raise e
  | None => emit EvProcessStart
  end.

(** [_run_worker]: [entry_point.run] is called without [runner_type], whose
    default in sagemaker_training is the process runner. *)
Definition _run_worker (w : world) (env : Environment)
    (cmd_args : list string) (cfg : tf_config) : M unit :=
  let vars : gmap string env_value := EnvStr <$> to_env_vars env in
  let vars := <[ "TF_CONFIG" := EnvJson cfg ]> vars in
  entry_point_run w
    (EntryPointCall (module_dir env) (env_user_entry_point env) cmd_args vars true
                    ProcessRunnerType).

(** The [while True] loop, cut off after [fuel] probes. *)
Fixpoint _wait_until_master_is_down (w : world) (fuel : nat) (master : string) : M unit :=
  match fuel with
  | 0 => out_of_fuel
  | S fuel' =>
      stop ← try_except
        (subprocess_check_call w ["curl"; format_host_port master "2222"];;
         logger_info msg_master_up [master];;
         time_sleep 10;;
         mret false)
        (λ e, match e with
              | CalledProcessError =>
                  Some (logger_info msg_master_down [master];; mret true)
              | _ => None
              end);
      if stop : bool then mret () else _wait_until_master_is_down w fuel' master
  end.

(** ** The orchestrator *)

Definition parameter_server_enabled (env : Environment) : pyval :=
  py_and (dict_get (additional_framework_parameters env)
                   SAGEMAKER_PARAMETER_SERVER_ENABLED (PyBool false))
         (PyBool (bool_decide (1 < length (hosts env)))).

Definition multi_worker_mirrored_strategy_enabled (env : Environment) : pyval :=
  dict_get (additional_framework_parameters env)
           SAGEMAKER_MULTI_WORKER_MIRRORED_STRATEGY_ENABLED (PyBool false).

Definition sagemaker_distributed_dataparallel_enabled (env : Environment) : pyval :=
  dict_get (additional_framework_parameters env)
           SAGEMAKER_DISTRIBUTED_DATAPARALLEL_ENABLED (PyBool false).

Definition in_distribution_groups (env : Environment) : bool :=
  bool_decide (current_instance_group env ∈ distribution_instance_groups env).

(** The locals that the setup phase of [train] leaves to the run phase:
    [tf_config] (unbound when [None]) and [env_vars]. *)
Record train_locals : Type := Locals {
  local_tf_config : option tf_config;
  local_env_vars : gmap string env_value
}.

(** The [# Setup] block of [train] (lines 176-190). *)
Definition train_setup (env : Environment) : M train_locals :=
  let vars : gmap string env_value := EnvStr <$> to_env_vars env in
  if in_distribution_groups env then
    if truthy (parameter_server_enabled env) then
      cfg ← lift (_build_tf_config_for_ps (distribution_hosts env) (current_host env) false);
      logger_info msg_running_ps [];;
      mret (Locals (Some cfg) vars)
    else if truthy (multi_worker_mirrored_strategy_enabled env) then
      cfg ← lift (_build_tf_config_for_mwms (distribution_hosts env) (current_host env));
      let vars := <[ "TF_CONFIG" := EnvJson cfg ]> vars in
      logger_info msg_running_mwms [];;
      mret (Locals None vars)
    else mret (Locals None vars)
  else mret (Locals None vars).

(** The [# Run] block of [train] (lines 192-221). *)
Definition train_run (w : world) (fuel : nat) (env : Environment)
    (cmd_args : list string) (locals : train_locals) : M unit :=
  let rt := ProcessRunnerType in
  if truthy (parameter_server_enabled env) then
    logger_info msg_launching_ps [];;
    cfg ← read_local "tf_config" (local_tf_config locals);
    _run_ps w env (cluster cfg);;
    logger_info msg_launching_worker [];;
    cfg ← read_local "tf_config" (local_tf_config locals);
    _run_worker w env cmd_args cfg;;
    is_master ← lift (_is_host_master (hosts env) (current_host env));
    if negb is_master then
      master ← lift (py_first (hosts env));
      _wait_until_master_is_down w fuel master
    else mret ()
  else
    let rt :=
      if in_distribution_groups env then
        let mpi_enabled :=
          dict_get (additional_framework_parameters env) "sagemaker_mpi_enabled" PyNone in
        if truthy mpi_enabled then MPIRunnerType
        else if truthy (sagemaker_distributed_dataparallel_enabled env)
             then SMDataParallelRunnerType
             else rt
      else rt in
    entry_point_run w
      (EntryPointCall (module_dir env) (env_user_entry_point env) cmd_args
                      (local_env_vars locals) true rt).

Definition train (w : world) (fuel : nat) (env : Environment)
    (cmd_args : list string) : M unit :=
  locals ← train_setup env;
  train_run w fuel env cmd_args locals.

(** ** Paths, names and the walk of the model directory *)

Definition sep : ascii := "/"%char.

Definition is_sep (c : ascii) : bool := Ascii.eqb c sep.

(** [p[:i], p[i:]] with [i = p.rfind('/') + 1]. *)
Fixpoint rsplit_sep (p : string) : string * string :=
  match p with
  | EmptyString => (EmptyString, EmptyString)
  | String c p' =>
      match rsplit_sep p' with
      | (EmptyString, t) =>
          if is_sep c then (String c EmptyString, t) else (EmptyString, String c t)
      | (h, t) => (String c h, t)
      end
  end.

Fixpoint all_sep (s : string) : bool :=
  match s with
  | EmptyString => true
  | String c s' => is_sep c && all_sep s'
  end.

(** [s.rstrip('/')] *)
Fixpoint rstrip_sep (s : string) : string :=
  match s with
  | EmptyString => EmptyString
  | String c s' => if all_sep s then EmptyString else String c (rstrip_sep s')
  end.

(** [os.path.split] of posixpath. *)
Definition os_path_split (p : string) : string * string :=
  let '(head, tail) := rsplit_sep p in
  let head := if all_sep head then head else rstrip_sep head in
  (head, tail).

Fixpoint str_endswith_sep (s : string) : bool :=
  match s with
  | EmptyString => false
  | String c EmptyString => is_sep c
  | String _ s' => str_endswith_sep s'
  end.

(** [os.path.join(a, b)] of posixpath. *)
Definition os_path_join (a b : string) : string :=
  if String.prefix "/" b then b
  else if String.eqb a EmptyString || str_endswith_sep a then a +:+ b
  else a +:+ "/" +:+ b.

(** [needle in s] *)
Fixpoint str_contains (needle s : string) : bool :=
  String.prefix needle s ||
  match s with
  | EmptyString => false
  | String _ s' => str_contains needle s'
  end.

Definition is_ascii_digit (c : ascii) : bool :=
  ((48 <=? nat_of_ascii c)%nat && (nat_of_ascii c <=? 57)%nat)%bool.

Fixpoint all_digits (s : string) : bool :=
  match s with
  | EmptyString => true
  | String c s' => is_ascii_digit c && all_digits s'
  end.

(** [str.isdigit] on names made of ASCII characters only: there it is the
    test for a non-empty run of the characters 0 to 9.  The example
    directories below use it. *)
Definition ascii_isdigit (s : string) : bool :=
  negb (String.eqb s EmptyString) && all_digits s.

(** A directory: its sub-directories by name, and the names of its files. *)
#[local] Unset Elimination Schemes.
Inductive tree : Type :=
  | Dir (subdirs : list (string * tree)) (files : list string).
#[local] Set Elimination Schemes.

(** [os.walk(top)], top-down: [(dirpath, dirnames, filenames)]. *)
Fixpoint os_walk (top : string) (t : tree) : list (string * list string * list string) :=
  match t with
  | Dir subdirs files =>
      (top, fst <$> subdirs, files) ::
      (fix walk_subdirs (l : list (string * tree)) :=
         match l with
         | [] => []
         | (name, sub) :: l' => os_walk (os_path_join top name) sub ++ walk_subdirs l'
         end) subdirs
  end.

(** ** The advisory check of the model directory *)

Definition dquote : string := String (ascii_of_nat 34) EmptyString.
Definition newline : string := String (ascii_of_nat 10) EmptyString.

Definition msg_not_numeric : string :=
  "Your model will NOT be servable with SageMaker TensorFlow Serving containers. "
  +:+ "The SavedModel bundle is under directory " +:+ dquote +:+ "{}" +:+ dquote
  +:+ ", not a numeric name.".

Definition msg_no_model_artifact : string :=
  "No model artifact is saved under path {}."
  +:+ " Your training job will not save any model files to S3." +:+ newline
  +:+ "For details of how to construct your training script see:" +:+ newline
  +:+ "https://sagemaker.readthedocs.io/en/stable/using_tf.html#adapting-your-local-tensorflow-script".

Definition msg_not_saved_model : string :=
  "Your model will NOT be servable with SageMaker TensorFlow Serving container. "
  +:+ "The model artifact was not saved in the TensorFlow SavedModel directory structure:"
  +:+ newline +:+ "https://www.tensorflow.org/guide/saved_model#structure_of_a_savedmodel_directory".

Definition is_saved_model_name (f : string) : bool :=
  str_contains "saved_model.pb" f || str_contains "saved_model.pbtxt" f.

(** [str.isdigit] is Python's test that a string is not empty and holds
    digits only, in the Unicode sense.  Its table of digit characters is
    not part of this module, so the check takes the test as the parameter
    [str_isdigit]. *)

(** The body of the loop over [filenames] (lines 230-240). *)
Definition check_file (str_isdigit : string → bool) (dirpath f : string)
    (pb_file_exists : bool) : M bool :=
  if is_saved_model_name f then
    let '(path, direct_parent_dir) := os_path_split dirpath in
    (if negb (str_isdigit direct_parent_dir)
     then logger_warn msg_not_numeric [direct_parent_dir]
     else mret ());;
    mret true
  else mret pb_file_exists.

(** The body of the loop over [os.walk(model_dir)] (lines 227-240); the
    flags are [(pb_file_exists, file_exists)]. *)
Definition check_dir (str_isdigit : string → bool)
    (entry : string * list string * list string)
    (flags : bool * bool) : M (bool * bool) :=
  let '(dirpath, dirnames, filenames) := entry in
  let '(pb_file_exists, file_exists) := flags in
  let file_exists := if bool_decide (filenames = []) then file_exists else true in
  pb_file_exists ←
    for_each filenames (check_file str_isdigit dirpath) pb_file_exists;
  mret (pb_file_exists, file_exists).

Definition _log_model_missing_warning (str_isdigit : string → bool)
    (model_dir : string) (fs : tree) : M unit :=
  flags ←
    for_each (os_walk model_dir fs) (check_dir str_isdigit) (false, false);
  let '(pb_file_exists, file_exists) := flags in
  if negb file_exists then logger_warn msg_no_model_artifact [model_dir]
  else if negb pb_file_exists then logger_warn msg_not_saved_model []
  else mret ().

(** *** The model directory in the words of the specification *)

Fixpoint has_sep (s : string) : bool :=
  match s with
  | EmptyString => false
  | String c s' => is_sep c || has_sep s'
  end.

(** Directory names are path components: they hold no separator. *)
Fixpoint tree_wf (t : tree) : bool :=
  match t with
  | Dir subdirs files =>
      (fix subdirs_wf (l : list (string * tree)) :=
         match l with
         | [] => true
         | (name, sub) :: l' => negb (has_sep name) && tree_wf sub && subdirs_wf l'
         end) subdirs
  end.

(** Every file of the tree with the name of the directory that holds it,
    top-down; [name] is the name of the root. *)
Fixpoint files_by_parent (name : string) (t : tree) : list (string * string) :=
  match t with
  | Dir subdirs files =>
      ((λ f, (name, f)) <$> files) ++
      (fix in_subdirs (l : list (string * tree)) :=
         match l with
         | [] => []
         | (n, sub) :: l' => files_by_parent n sub ++ in_subdirs l'
         end) subdirs
  end.

(** The warning that one file in directory [d] gives rise to. *)
Definition file_warning (str_isdigit : string → bool) (df : string * string) :
    list event :=
  if is_saved_model_name df.2 && negb (str_isdigit df.1)
  then [EvLog WARNING msg_not_numeric [df.1]] else [].

(** The warning about the directory as a whole. *)
Definition final_warning (model_dir : string) (parents : list (string * string)) :
    list event :=
  if bool_decide (parents = []) then [EvLog WARNING msg_no_model_artifact [model_dir]]
  else if existsb (λ df, is_saved_model_name df.2) parents then []
  else [EvLog WARNING msg_not_saved_model []].

Definition expected_warnings (str_isdigit : string → bool)
    (model_dir : string) (fs : tree) : list event :=
  let parents := files_by_parent (os_path_split model_dir).2 fs in
  mjoin (file_warning str_isdigit <$> parents) ++ final_warning model_dir parents.

(** The files that a list of [os.walk] entries holds, each with the last
    component of its [dirpath]. *)
Definition walk_files (entries : list (string * list string * list string)) :
    list (string * string) :=
  entries ≫= λ '(dirpath, _, filenames),
    (λ f, ((os_path_split dirpath).2, f)) <$> filenames.

(** Example model directories. *)
Definition tree_empty : tree := Dir [("variables", Dir [] [])] [].
Definition tree_export : tree :=
  Dir [("export", Dir [("Servo", Dir [] ["saved_model.pb"])] [])] ["checkpoint"].
Definition tree_numeric : tree :=
  Dir [("1", Dir [("variables", Dir [] ["variables.index"])] ["saved_model.pb"])] [].

(** ** Reference traces and example data used by the statements *)

(** The command of one liveness probe. *)
Definition curl_master (master : string) : list string :=
  ["curl"; master +:+ ":2222"].

(** What [n] rounds of the wait loop with a reachable master leave in the
    trace: probe, log, ten seconds of sleep, [n] times over. *)
Definition polling_rounds (master : string) (n : nat) : list event :=
  mjoin (replicate n
    [EvCheckCall (curl_master master); EvLog INFO msg_master_up [master]; EvSleep 10]).

(** The last, failed probe and the log line that follows it. *)
Definition final_probe (master : string) : list event :=
  [EvCheckCall (curl_master master); EvLog INFO msg_master_down [master]].

(** Seconds slept in a trace. *)
Definition slept (tr : list event) : nat :=
  sum_list_with (λ e, match e with EvSleep n => n | _ => 0 end) tr.

(** A master that answers the first [n] probes and is down afterwards. *)
Definition master_up_for (n : nat) : world :=
  World (λ _ _, None) (λ _, None)
        (λ k, if decide (k < n) then None else Some CalledProcessError).

(** The framework parameters as [train] reads them. *)
Definition ps_flag (env : Environment) : pyval :=
  dict_get (additional_framework_parameters env)
           SAGEMAKER_PARAMETER_SERVER_ENABLED (PyBool false).

Definition mpi_flag (env : Environment) : pyval :=
  dict_get (additional_framework_parameters env) "sagemaker_mpi_enabled" PyNone.

(** The events of the parameter-server branch of the run phase when every
    step succeeds, up to the return of the worker. *)
Definition ps_run_events (cl : gmap string (list string)) (idx : nat)
    (call : entry_point_call) : list event :=
  [EvLog INFO msg_launching_ps []; EvLog INFO msg_running_ps [];
   EvTfServer cl "ps" idx 0; EvProcessStart;
   EvLog INFO msg_launching_worker [];
   EvEntryPointRun call; EvEntryPointReturn].

Definition is_log (e : event) : Prop :=
  match e with EvLog _ _ _ => True | _ => False end.

(** The events that the wait for [master] can leave in the trace. *)
Definition wait_event (master : string) (e : event) : Prop :=
  match e with
  | EvCheckCall cmd => cmd = curl_master master
  | EvLog lvl template fmt_args =>
      lvl = INFO ∧ fmt_args = [master] ∧
      (template = msg_master_up ∨ template = msg_master_down)
  | EvSleep seconds => seconds = 10
  | _ => False
  end.

(** The environment is consistent: a host whose instance group takes part
    in the distribution is one of the distribution hosts. *)
Definition env_wf (env : Environment) : Prop :=
  in_distribution_groups env = true → current_host env ∈ distribution_hosts env.

(** Example jobs: two hosts with both the parameter-server and the
    multi-worker-mirrored flag set, seen from the second host. *)
Definition params_ps_and_mwms : gmap string pyval :=
  {[ SAGEMAKER_PARAMETER_SERVER_ENABLED := PyBool true;
     SAGEMAKER_MULTI_WORKER_MIRRORED_STRATEGY_ENABLED := PyBool true ]}.

(** The instance group of the current host takes part in the distribution. *)
Definition env_in_distribution : Environment :=
  Env params_ps_and_mwms ["algo-1"; "algo-2"] "algo-2" ["algo-1"; "algo-2"]
      "group-a" ["group-a"] "s3://bucket/sourcedir.tar.gz" "train.py" ∅.

(** A heterogeneous cluster: the current host is in a group that does not
    take part in the distribution. *)
Definition env_outside_distribution : Environment :=
  Env params_ps_and_mwms ["algo-1"; "algo-2"] "algo-2" ["algo-1"]
      "group-b" ["group-a"] "s3://bucket/sourcedir.tar.gz" "train.py" ∅.

(** A single host with the MPI flag set. *)
Definition env_mpi : Environment :=
  Env {[ "sagemaker_mpi_enabled" := PyBool true ]} ["algo-1"] "algo-1" ["algo-1"]
      "group-a" ["group-a"] "s3://bucket/sourcedir.tar.gz" "train.py" ∅.

(** ** The model directory of a tuning job, and the entry point *)

(** [str(v)], as [format] renders a value. *)
Definition py_str (v : pyval) : string :=
  match v with
  | PyNone => "None"
  | PyBool true => "True"
  | PyBool false => "False"
  | PyInt z => pretty z
  | PyStr s => s
  end.

(** [v.startswith(p)]: only a [str] has the method, anything else raises
    [AttributeError]. *)
Definition py_startswith (v : pyval) (p : string) : result bool :=
  match v with
  | PyStr s => Ok (String.prefix p s)
  | _ => Raise (ExternalError "AttributeError")
  end.

Definition _model_dir_with_training_job (model_dir : pyval) (job_name : string) :
    result pyval :=
  under ← (if truthy model_dir then py_startswith model_dir "/opt/ml" else mret false);
  if under : bool then mret model_dir
  else mret (PyStr (py_str model_dir +:+ "/" +:+ job_name +:+ "/model")).

(** What [main] reads from outside this module: the hyperparameters file,
    the [Environment] built from it, the process environment, the S3
    configuration, [mapping.to_cmd_args] and the model directory as it is
    when training is over.  [env.hyperparameters] is a dictionary that
    [main] updates in place before [train] reads the environment, so the
    environment is given as a function of that dictionary. *)
Record main_world : Type := MainWorld {
  read_hyperparameters : gmap string pyval;
  env_hyperparameters : gmap string pyval;
  env_job_name : string;
  env_with_hyperparameters : gmap string pyval → Environment;
  sagemaker_region : option string;
  s3_configure_outcome : pyval → option string → option py_error;
  to_cmd_args : gmap string pyval → list string;
  model_dir_tree : tree
}.

Definition msg_appending_job_name : string :=
  "Appending the training job name to model_dir: {}".

(** [s3_utils.configure(model_dir, region)]: it returns or it raises. *)
Definition s3_utils_configure (mw : main_world) (model_dir : pyval)
    (region : option string) : M unit :=
  match s3_configure_outcome mw model_dir region with
  | Some e => raise e
  | None => mret ()
  end.

Definition main (str_isdigit : string → bool) (w : world) (mw : main_world)
    (fuel : nat) : M unit :=
  let hyperparameters := read_hyperparameters mw in
  let user_hyperparameters := env_hyperparameters mw in
  user_hyperparameters ←
    (if bool_decide (is_Some (hyperparameters !! "_tuning_objective_metric")) then
       model_dir ← lift (_model_dir_with_training_job
                           (dict_get hyperparameters "model_dir" PyNone)
                           (env_job_name mw));
       logger_info msg_appending_job_name [py_str model_dir];;
       mret (<[ "model_dir" := model_dir ]> user_hyperparameters)
     else mret user_hyperparameters);
  s3_utils_configure mw (dict_get user_hyperparameters "model_dir" PyNone)
                     (sagemaker_region mw);;
  train w fuel (env_with_hyperparameters mw user_hyperparameters)
        (to_cmd_args mw user_hyperparameters);;
  _log_model_missing_warning str_isdigit MODEL_DIR (model_dir_tree mw).

(** *** Helpers of the further statements *)

(** The environment with other framework parameters. *)
Definition with_framework_parameters (params : gmap string pyval)
    (env : Environment) : Environment :=
  Env params (hosts env) (current_host env) (distribution_hosts env)
      (current_instance_group env) (distribution_instance_groups env)
      (module_dir env) (env_user_entry_point env) (to_env_vars env).

(** The port of the addresses listed under a role. *)
Definition role_port (role : string) : string :=
  if String.eqb role "ps" then "2223" else "2222".

Definition is_not_numeric_warning (e : event) : bool :=
  match e with
  | EvLog WARNING template _ => String.eqb template msg_not_numeric
  | _ => false
  end.

(** The files that the check takes for a SavedModel and that sit in a
    directory whose name is not all digits. *)
Definition misplaced_saved_models (str_isdigit : string → bool)
    (parents : list (string * string)) : list (string * string) :=
  filter (λ df, is_saved_model_name df.2 = true ∧ str_isdigit df.1 = false) parents.

(** What the entry point call of the worker looks like. *)
Definition worker_call (env : Environment) (cmd_args : list string)
    (cfg : tf_config) : entry_point_call :=
  EntryPointCall (module_dir env) (env_user_entry_point env) cmd_args
    (<[ "TF_CONFIG" := EnvJson cfg ]> (EnvStr <$> to_env_vars env)) true
    ProcessRunnerType.

(** Collaborators that fail: the user script, the TensorFlow server. *)
Definition world_failing_worker : world :=
  World (λ _ _, None) (λ _, Some (ExternalError "ExecuteUserScriptError")) (λ _, None).
Definition world_failing_server : world :=
  World (λ _ _, Some (ExternalError "UnknownError")) (λ _, None) (λ _, None).

(** More example jobs: two hosts with the MPI and the multi-worker-mirrored
    flag; one host with the parameter-server flag; an environment whose
    current host is not among the distribution hosts. *)
Definition env_mwms_mpi : Environment :=
  Env {[ "sagemaker_mpi_enabled" := PyBool true;
         SAGEMAKER_MULTI_WORKER_MIRRORED_STRATEGY_ENABLED := PyBool true ]}
      ["algo-1"; "algo-2"] "algo-2" ["algo-1"; "algo-2"]
      "group-a" ["group-a"] "s3://bucket/sourcedir.tar.gz" "train.py" ∅.

Definition env_single_host_ps : Environment :=
  Env {[ SAGEMAKER_PARAMETER_SERVER_ENABLED := PyBool true ]}
      ["algo-1"] "algo-1" ["algo-1"]
      "group-a" ["group-a"] "s3://bucket/sourcedir.tar.gz" "train.py" ∅.

Definition env_stray_host : Environment :=
  Env params_ps_and_mwms ["algo-1"; "algo-2"; "algo-3"] "algo-3" ["algo-1"; "algo-2"]
      "group-a" ["group-a"] "s3://bucket/sourcedir.tar.gz" "train.py" ∅.

(** The runner that the run phase selects outside the parameter-server
    branch. *)
Definition selected_runner (env : Environment) : RunnerType :=
  if in_distribution_groups env then
    if truthy (mpi_flag env) then MPIRunnerType
    else if truthy (sagemaker_distributed_dataparallel_enabled env)
         then SMDataParallelRunnerType
         else ProcessRunnerType
  else ProcessRunnerType.

(** The events that [train] can leave outside the parameter-server branch. *)
Definition non_ps_event (e : event) : Prop :=
  match e with
  | EvLog INFO template [] => template = msg_running_mwms
  | EvEntryPointRun _ | EvEntryPointReturn => True
  | _ => False
  end.

(** Example runs of [main] on the single-host MPI job: the command line
    holds the model directory when there is one. *)
Definition example_cmd_args (hps : gmap string pyval) : list string :=
  match hps !! "model_dir" with
  | Some v => ["--model_dir"; py_str v]
  | None => []
  end.

Definition main_world_plain : main_world :=
  MainWorld ∅ ∅ "job-7" (λ _, env_mpi) None (λ _ _, None) example_cmd_args
            tree_numeric.

(** A tuning job whose hyperparameters hold no model directory. *)
Definition main_world_tuning : main_world :=
  MainWorld {[ "_tuning_objective_metric" := PyStr "loss" ]} ∅ "job-7"
            (λ _, env_mpi) None (λ _ _, None) example_cmd_args tree_numeric.

(** * Properties *)

(** ** Topology builders *)

Section Topology.

Implicit Types (hosts : list string) (current_host h : string).

Lemma format_host_port_append h port :
  format_host_port h port = h +:+ String ":" port.
Proof.
  reflexivity.
Qed.

Lemma host_addresses_fmap hosts port :
  host_addresses hosts port = (λ h, h +:+ String ":" port) <$> hosts.
Proof.
  unfold host_addresses. apply list_fmap_ext. intros _ h _.
  apply format_host_port_append.
Qed.

Lemma list_index_Some x hosts i :
  list_index x hosts = Some i →
  hosts !! i = Some x ∧ ∀ j, j < i → hosts !! j ≠ Some x.
Proof.
  revert i. induction hosts as [|y l IH]; intros i; simpl; [done|].
  case_decide as Hxy.
  - intros [= <-]. split; [by subst|]. intros j Hj. lia.
  - destruct (list_index x l) as [k|] eqn:Hk; simpl; [|done].
    intros [= <-]. destruct (IH k eq_refl) as [Hl Hmin]. split; [done|].
    intros [|j] Hj; simpl; [congruence|]. apply Hmin. lia.
Qed.

Lemma list_index_elem_of x hosts :
  x ∈ hosts → is_Some (list_index x hosts).
Proof.
  induction 1 as [y l|y z l Hin IH]; simpl.
  - rewrite decide_True by done. eauto.
  - case_decide; [eauto|]. destruct IH as [k ->]. simpl. eauto.
Qed.

Lemma py_index_elem_of x hosts :
  x ∈ hosts →
  ∃ i, py_index x hosts = Ok i ∧ hosts !! i = Some x ∧ ∀ j, j < i → hosts !! j ≠ Some x.
Proof.
  intros Hin. destruct (list_index_elem_of _ _ Hin) as [i Hi].
  exists i. unfold py_index. rewrite Hi. split; [done|].
  by apply list_index_Some.
Qed.

(** C1.  For at least two distinct hosts and a current host among them,
    the parameter-server topology has the first host alone under [master]
    (port 2222), the remaining hosts in order under [worker] (port 2222)
    and all hosts in order under [ps] (port 2223), and no other role.
    Built for a parameter server, the task is [ps] at the position of the
    current host in the host list; otherwise the first host gets
    [master], index 0, and any other host gets [worker] at its position
    among the hosts after the first.  Scenario A: hosts a, b, c and
    current host b give the worker task of index 0. *)
Theorem build_tf_config_for_ps_topology hosts current_host (ps_task : bool) :
  2 ≤ length hosts →
  NoDup hosts →
  current_host ∈ hosts →
  (∃ cfg h0,
      _build_tf_config_for_ps hosts current_host ps_task = Ok cfg ∧
      hosts !! 0 = Some h0 ∧
      cluster cfg !! "master" = Some [h0 +:+ ":2222"] ∧
      cluster cfg !! "worker" = Some ((λ h, h +:+ ":2222") <$> drop 1 hosts) ∧
      cluster cfg !! "ps" = Some ((λ h, h +:+ ":2223") <$> hosts) ∧
      dom (cluster cfg) = ({["master"; "worker"; "ps"]} : gset string) ∧
      (ps_task = true →
         task_type (task cfg) = "ps" ∧
         ∀ i, hosts !! i = Some current_host ↔ i = task_index (task cfg)) ∧
      (ps_task = false → current_host = h0 → task cfg = Task 0 "master") ∧
      (ps_task = false → current_host ≠ h0 →
         task_type (task cfg) = "worker" ∧
         ∀ i, drop 1 hosts !! i = Some current_host ↔ i = task_index (task cfg))) ∧
  _build_tf_config_for_ps ["a"; "b"; "c"] "b" false =
    Ok (TfConfig (<[ "worker" := ["b:2222"; "c:2222"] ]>
                    (<[ "ps" := ["a:2223"; "b:2223"; "c:2223"] ]>
                       {[ "master" := ["a:2222"] ]}))
                 "cloud" (Task 0 "worker")).
Proof.
  intros Hlen Hnd Hin. split; [|reflexivity].
  destruct hosts as [|h0 [|h1 rest]]; simpl in Hlen; try lia.
  set (hs := h0 :: h1 :: rest) in *.
  assert (Hpos : ∀ i j, hs !! i = Some current_host → hs !! j = Some current_host → i = j).
  { intros i j Hi Hj. by eapply NoDup_lookup. }
  unfold _build_tf_config_for_ps.
  rewrite decide_True by (simpl; lia).
  change (truthy_hosts (Some hs)) with true.
  change (truthy_hosts (Some (drop 1 hs))) with true.
  cbv zeta. change (default [] (Some hs)) with hs.
  rewrite !host_addresses_fmap.
  change (take 1 hs) with [h0]. change (drop 1 hs) with (h1 :: rest) in *.
  set (cl := <["worker" := _]> _).
  assert (Hm : cl !! "master" = Some [h0 +:+ ":2222"]).
  { unfold cl. rewrite !lookup_insert_ne by done. by rewrite lookup_singleton_eq. }
  assert (Hw : cl !! "worker" = Some ((λ h, h +:+ ":2222") <$> (h1 :: rest))).
  { unfold cl. by rewrite lookup_insert_eq. }
  assert (Hp : cl !! "ps" = Some ((λ h, h +:+ ":2223") <$> hs)).
  { unfold cl. rewrite lookup_insert_ne by done. by rewrite lookup_insert_eq. }
  assert (Hd : dom cl = ({["master"; "worker"; "ps"]} : gset string)).
  { unfold cl. rewrite !dom_insert_L, dom_singleton_L. set_solver. }
  destruct ps_task.
  - destruct (py_index_elem_of _ _ Hin) as (i & Hi & Hl & _).
    rewrite Hi. eexists _, h0. simpl. repeat split; try done.
    + intros Hj. by apply (Hpos _ _ Hj).
    + by intros ->.
  - unfold _is_host_master. simpl. case_bool_decide as Heq.
    + eexists _, h0. simpl. repeat split; done.
    + assert (Hin' : current_host ∈ h1 :: rest).
      { apply elem_of_cons in Hin as [?|?]; done. }
      destruct (py_index_elem_of _ _ Hin') as (i & Hi & Hl & _).
      rewrite Hi. eexists _, h0. simpl. repeat split; try done.
      * intros Hj. assert (S i0 = S i) as [= ->]; [|done].
        by apply Hpos.
      * by intros ->.
Qed.

(** Scenario A of C1, obtained from the general statement. *)
Lemma build_tf_config_for_ps_topology_witness :
  ∃ cfg,
    _build_tf_config_for_ps ["a"; "b"; "c"] "b" false = Ok cfg ∧
    cluster cfg !! "master" = Some ["a:2222"] ∧
    cluster cfg !! "worker" = Some ["b:2222"; "c:2222"] ∧
    cluster cfg !! "ps" = Some ["a:2223"; "b:2223"; "c:2223"] ∧
    task_type (task cfg) = "worker" ∧
    task_index (task cfg) = 0.
Proof.
  destruct (build_tf_config_for_ps_topology ["a"; "b"; "c"] "b" false) as [H _].
  - simpl. lia.
  - by apply (bool_decide_unpack _).
  - by apply (bool_decide_unpack _).
  - destruct H as (cfg & h0 & Hb & Hh & Hm & Hw & Hp & _ & _ & _ & Ht).
    injection Hh as <-. exists cfg. repeat split; try done.
    + by apply Ht.
    + symmetry. by apply Ht.
Defined.

(** C2.  With a single host, building the topology for a parameter
    server raises the configuration error, whatever the current host; the
    call yields no topology and, run inside the orchestration monad, it
    leaves the event trace untouched, so nothing was launched.  Built for
    the worker side of that single host, the task is [master], index 0. *)
Theorem build_tf_config_for_ps_single_host h current_host :
  _build_tf_config_for_ps [h] current_host true =
    Raise (ValueError
      "Cannot have a ps task if there are no parameter servers in the cluster") ∧
  (∀ s, ∃ e, lift (_build_tf_config_for_ps [h] current_host true) s
             = (s, Some (Raise e))) ∧
  ∃ cfg, _build_tf_config_for_ps [h] h false = Ok cfg ∧
         task cfg = Task 0 "master".
Proof.
  split; [reflexivity|]. split.
  - intros s. eexists. reflexivity.
  - unfold _build_tf_config_for_ps, _is_host_master. simpl.
    rewrite bool_decide_eq_true_2 by done. eexists. split; reflexivity.
Qed.

(** C3.  For a non-empty host list and a current host among them, the
    multi-worker-mirrored topology has exactly one role, [worker], listing
    all hosts in order with port 8890, and the task is [worker] at the
    first position of the current host in the host list.  Scenario B:
    hosts a, b and current host b give workers a:8890, b:8890 and the task
    of index 1. *)
Theorem build_tf_config_for_mwms_topology hosts current_host :
  hosts ≠ [] →
  current_host ∈ hosts →
  (∃ cfg i,
      _build_tf_config_for_mwms hosts current_host = Ok cfg ∧
      cluster cfg = {[ "worker" := (λ h, h +:+ ":8890") <$> hosts ]} ∧
      (∀ role, role ≠ "worker" → cluster cfg !! role = None) ∧
      task cfg = Task i "worker" ∧
      hosts !! i = Some current_host ∧
      (∀ j, j < i → hosts !! j ≠ Some current_host)) ∧
  _build_tf_config_for_mwms ["a"; "b"] "b" =
    Ok (TfConfig {[ "worker" := ["a:8890"; "b:8890"] ]} "cloud" (Task 1 "worker")).
Proof.
  intros _ Hin. split; [|reflexivity].
  destruct (py_index_elem_of _ _ Hin) as (i & Hi & Hl & Hmin).
  unfold _build_tf_config_for_mwms. rewrite Hi. simpl.
  rewrite host_addresses_fmap, insert_empty.
  eexists _, i. simpl. split; [done|]. split; [done|]. split; [|done].
  intros role Hne. simpl. by rewrite lookup_singleton_ne.
Qed.

Lemma build_tf_config_for_mwms_topology_witness :
  ∃ cfg,
    _build_tf_config_for_mwms ["a"; "b"] "b" = Ok cfg ∧
    cluster cfg = {[ "worker" := ["a:8890"; "b:8890"] ]} ∧
    task cfg = Task 1 "worker".
Proof.
  destruct (build_tf_config_for_mwms_topology ["a"; "b"] "b") as [H _].
  - done.
  - by apply (bool_decide_unpack _).
  - destruct H as (cfg & i & Hb & Hc & _ & Ht & Hi & Hmin).
    exists cfg. repeat split; try done.
    destruct i as [|[|i]]; simpl in Hi; try done.
Defined.

(** C10.  With a single host and the worker-side task, the cluster holds
    the [master] role only: the empty worker list is left out and there is
    no [ps] entry.  This holds for whatever topology the call returns, and
    it does return one for the host itself. *)
Theorem build_tf_config_for_ps_single_host_master_only h :
  (∃ cfg, _build_tf_config_for_ps [h] h false = Ok cfg) ∧
  ∀ current_host cfg,
    _build_tf_config_for_ps [h] current_host false = Ok cfg →
    cluster cfg = {[ "master" := [h +:+ ":2222"] ]} ∧
    cluster cfg !! "worker" = None ∧
    cluster cfg !! "ps" = None ∧
    dom (cluster cfg) = ({["master"]} : gset string).
Proof.
  split.
  - unfold _build_tf_config_for_ps, _is_host_master. simpl.
    rewrite bool_decide_eq_true_2 by done. eexists. reflexivity.
  - intros current_host cfg.
    unfold _build_tf_config_for_ps, _is_host_master. simpl.
    case_bool_decide; simpl.
    + intros [= <-]. simpl. rewrite dom_singleton_L. done.
    + unfold py_index. simpl. done.
Qed.

End Topology.

(** ** The wait for the master *)

Section WaitLoop.

Variable w : world.
Variable master : string.

Lemma wait_step_up fuel s :
  check_call_outcome w (probes s) = None →
  _wait_until_master_is_down w (S fuel) master s =
  _wait_until_master_is_down w fuel master
    (State (trace s ++ polling_rounds master 1) (S (probes s))).
Proof.
  intros Hup. cbn [_wait_until_master_is_down].
  unfold mbind at 1, M_bind, try_except at 1.
  unfold mbind, M_bind, subprocess_check_call. rewrite Hup. simpl.
  by rewrite <- !app_assoc.
Qed.

Lemma wait_step_down fuel s :
  check_call_outcome w (probes s) = Some CalledProcessError →
  _wait_until_master_is_down w (S fuel) master s =
  (State (trace s ++ final_probe master) (S (probes s)), Some (Ok ())).
Proof.
  intros Hdown. cbn [_wait_until_master_is_down].
  unfold mbind at 1, M_bind, try_except at 1.
  unfold mbind, M_bind, subprocess_check_call. rewrite Hdown. simpl.
  by rewrite <- !app_assoc.
Qed.

Lemma polling_rounds_S n :
  polling_rounds master (S n) = polling_rounds master 1 ++ polling_rounds master n.
Proof. reflexivity. Qed.

Lemma slept_polling_rounds n : slept (polling_rounds master n) = 10 * n.
Proof.
  induction n as [|n IH]; [done|].
  rewrite polling_rounds_S. unfold slept in *. rewrite sum_list_with_app, IH.
  simpl. lia.
Qed.

(** While the master answers, the loop keeps polling: after [fuel] rounds
    it has not returned. *)
Lemma wait_still_running fuel : ∀ s,
  (∀ k, k < fuel → check_call_outcome w (probes s + k) = None) →
  _wait_until_master_is_down w fuel master s =
  (State (trace s ++ polling_rounds master fuel) (probes s + fuel), None).
Proof.
  induction fuel as [|fuel IH]; intros s Hup.
  - simpl. unfold out_of_fuel. destruct s as [tr p]; simpl.
    by rewrite app_nil_r, Nat.add_0_r.
  - rewrite wait_step_up.
    2:{ specialize (Hup 0). rewrite Nat.add_0_r in Hup. apply Hup. lia. }
    rewrite IH; cbn [trace probes].
    + rewrite (polling_rounds_S fuel), app_assoc.
      replace (S (probes s) + fuel) with (probes s + S fuel) by lia. done.
    + intros k Hk. replace (S (probes s) + k) with (probes s + S k) by lia.
      apply Hup. lia.
Qed.

(** C6.  With the probes as a sequence of results: when the first [N]
    probes succeed and the next one fails, the loop, given room for more
    than [N] probes, returns normally after exactly [N] rounds of probe,
    log and ten seconds of sleep followed by the failed probe; it has
    slept [10 * N] seconds and made [N + 1] probes.  It does not return
    earlier: cut off after at most [N] rounds it is still polling.  When
    every probe succeeds it never returns, whatever the bound. *)
Theorem wait_until_master_is_down_first_failure (N : nat) (s : state) :
  (∀ k, k < N → check_call_outcome w (probes s + k) = None) →
  (check_call_outcome w (probes s + N) = Some CalledProcessError →
   ∀ fuel, N < fuel →
     _wait_until_master_is_down w fuel master s =
       (State (trace s ++ polling_rounds master N ++ final_probe master)
              (probes s + S N),
        Some (Ok ())) ∧
     slept (polling_rounds master N ++ final_probe master) = 10 * N) ∧
  (∀ fuel, fuel ≤ N →
     _wait_until_master_is_down w fuel master s =
       (State (trace s ++ polling_rounds master fuel) (probes s + fuel), None)) ∧
  ((∀ k, check_call_outcome w (probes s + k) = None) →
   ∀ fuel, (_wait_until_master_is_down w fuel master s).2 = None).
Proof.
  intros Hup. split; [|split].
  - intros Hdown fuel Hfuel. split.
    + revert s fuel Hup Hdown Hfuel.
      induction N as [|n IH]; intros s fuel Hup Hdown Hfuel.
      * destruct fuel as [|fuel]; [lia|]. rewrite Nat.add_0_r in Hdown.
        rewrite wait_step_down by done.
        replace (probes s + 1) with (S (probes s)) by lia. done.
      * destruct fuel as [|fuel]; [lia|].
        rewrite wait_step_up.
        2:{ specialize (Hup 0). rewrite Nat.add_0_r in Hup. apply Hup. lia. }
        rewrite IH; cbn [trace probes]; [| | |lia].
        -- rewrite (polling_rounds_S n), <- !app_assoc.
           replace (S (probes s) + S n) with (probes s + S (S n)) by lia. done.
        -- intros k Hk. replace (S (probes s) + k) with (probes s + S k) by lia.
           apply Hup. lia.
        -- by replace (S (probes s) + n) with (probes s + S n) by lia.
    + unfold slept. rewrite sum_list_with_app.
      fold (slept (polling_rounds master N)). rewrite slept_polling_rounds.
      simpl. lia.
  - intros fuel Hfuel. apply wait_still_running.
    intros k Hk. apply Hup. lia.
  - intros Hall fuel. rewrite wait_still_running; [done|].
    intros k _. apply Hall.
Qed.

End WaitLoop.

Lemma wait_until_master_is_down_first_failure_witness :
  _wait_until_master_is_down (master_up_for 2) 5 "algo-1" initial_state =
    (State [EvCheckCall ["curl"; "algo-1:2222"];
            EvLog INFO msg_master_up ["algo-1"]; EvSleep 10;
            EvCheckCall ["curl"; "algo-1:2222"];
            EvLog INFO msg_master_up ["algo-1"]; EvSleep 10;
            EvCheckCall ["curl"; "algo-1:2222"];
            EvLog INFO msg_master_down ["algo-1"]] 3,
     Some (Ok ())) ∧
  (_wait_until_master_is_down (master_up_for 2) 2 "algo-1" initial_state).2 = None.
Proof.
  destruct (wait_until_master_is_down_first_failure
              (master_up_for 2) "algo-1" 2 initial_state) as (Hret & Hrun & _).
  - intros k Hk. simpl. by rewrite decide_True.
  - split.
    + destruct (Hret eq_refl 5) as [-> _]; [lia|]. reflexivity.
    + rewrite (Hrun 2); [reflexivity|lia].
Defined.

(** ** The orchestrator *)

Lemma app_cons_eq_app_inv {A : Type} (pre post k1 k2 : list A) (e : A) :
  pre ++ e :: post = k1 ++ k2 →
  (∃ m, k1 = pre ++ e :: m) ∨ (∃ m, pre = k1 ++ m ∧ m ++ e :: post = k2).
Proof.
  revert k1. induction pre as [|a pre IH]; intros [|x k1]; simpl; intros H.
  - right. by exists [].
  - injection H as <- _. left. by exists k1.
  - right. by exists (a :: pre).
  - injection H as <- H. destruct (IH _ H) as [[m ->]|(m & -> & <-)].
    + left. by exists m.
    + right. by exists m.
Qed.

Section Train.

Implicit Types (w : world) (env : Environment) (s : state).

Lemma truthy_parameter_server_enabled env :
  truthy (parameter_server_enabled env) =
  truthy (ps_flag env) && bool_decide (1 < length (hosts env)).
Proof.
  unfold parameter_server_enabled, py_and. fold (ps_flag env).
  destruct (truthy (ps_flag env)) eqn:E; simpl; done.
Qed.

Lemma parameter_server_enabled_iff env :
  truthy (parameter_server_enabled env) = true ↔
  truthy (ps_flag env) = true ∧ 1 < length (hosts env).
Proof.
  rewrite truthy_parameter_server_enabled, andb_true_iff, bool_decide_eq_true.
  done.
Qed.

Lemma train_setup_not_in_groups env s :
  in_distribution_groups env = false →
  train_setup env s = (s, Some (Ok (Locals None (EnvStr <$> to_env_vars env)))).
Proof. intros Hg. unfold train_setup. by rewrite Hg. Qed.

(** C9.  With the parameter-server flag set and more than one host, on a
    host whose instance group is not among the distribution groups, the
    setup phase binds no topology, and the run phase still enters the
    parameter-server branch: it logs the launch and then reads the unbound
    [tf_config].  [train] raises [UnboundLocalError]; no server is
    created, no process started and the entry point is never run. *)
Theorem train_unbound_tf_config w fuel env cmd_args s :
  truthy (ps_flag env) = true →
  1 < length (hosts env) →
  current_instance_group env ∉ distribution_instance_groups env →
  train_setup env s = (s, Some (Ok (Locals None (EnvStr <$> to_env_vars env)))) ∧
  train w fuel env cmd_args s =
    (State (trace s ++ [EvLog INFO msg_launching_ps []]) (probes s),
     Some (Raise (UnboundLocalError "tf_config"))).
Proof.
  intros Hflag Hlen Hg.
  assert (Hps : truthy (parameter_server_enabled env) = true).
  { by apply parameter_server_enabled_iff. }
  assert (Hin : in_distribution_groups env = false).
  { by apply bool_decide_eq_false. }
  split; [by apply train_setup_not_in_groups|].
  unfold train, mbind at 1, M_bind. rewrite train_setup_not_in_groups by done.
  unfold train_run. rewrite Hps. reflexivity.
Qed.

Lemma build_tf_config_for_ps_worker_side_ok (dist : list string) (cur : string) :
  cur ∈ dist → ∃ cfg, _build_tf_config_for_ps dist cur false = Ok cfg.
Proof.
  intros Hin. destruct dist as [|h0 rest]; [by apply elem_of_nil in Hin|].
  unfold _build_tf_config_for_ps, _is_host_master. simpl.
  case_bool_decide as Heq; simpl; [eauto|].
  apply elem_of_cons in Hin as [?|Hin]; [done|]. rewrite !drop_0.
  destruct (py_index_elem_of _ _ Hin) as (i & -> & _). simpl. eauto.
Qed.

Lemma wait_trace_shape w master fuel : ∀ s,
  ∃ ext, trace (_wait_until_master_is_down w fuel master s).1 = trace s ++ ext ∧
         Forall (wait_event master) ext.
Proof.
  induction fuel as [|fuel IH]; intros s.
  - exists []. simpl. by rewrite app_nil_r.
  - destruct (check_call_outcome w (probes s)) as [e|] eqn:Hout.
    + cbn [_wait_until_master_is_down].
      unfold mbind at 1, M_bind, try_except at 1.
      unfold mbind, M_bind, subprocess_check_call. rewrite Hout.
      destruct e; simpl;
        try (eexists [_]; split; [reflexivity|];
             repeat constructor; done).
      eexists [_; _]. rewrite <- app_assoc. split; [reflexivity|].
      repeat first [apply Forall_nil_2 | apply Forall_cons_2]; simpl; auto.
    + rewrite wait_step_up by done.
      destruct (IH (State (trace s ++ polling_rounds master 1) (S (probes s))))
        as (ext & -> & Hext).
      exists (polling_rounds master 1 ++ ext). cbn [trace].
      rewrite app_assoc. split; [done|].
      apply Forall_app. split; [|done].
      repeat first [apply Forall_nil_2 | apply Forall_cons_2]; simpl; auto.
Qed.

Lemma train_run_ps_trace_shape w fuel env cmd_args locals s h0 rest :
  truthy (parameter_server_enabled env) = true →
  hosts env = h0 :: rest →
  ∃ cl idx call n ext,
    1 ≤ n ∧
    (ext ≠ [] → 7 ≤ n) ∧
    Forall (wait_event h0) ext ∧
    (current_host env = h0 → ext = []) ∧
    (∀ cfg, 6 ≤ n → local_tf_config locals = Some cfg →
            env_vars call !! "TF_CONFIG" = Some (EnvJson cfg)) ∧
    (local_tf_config locals = None → n = 1) ∧
    trace (train_run w fuel env cmd_args locals s).1 =
      trace s ++ take n (ps_run_events cl idx call) ++ ext.
Proof.
  intros Hps Hhosts.
  pose (call0 := EntryPointCall (module_dir env) (env_user_entry_point env)
                   cmd_args ∅ true ProcessRunnerType).
  unfold train_run. rewrite Hps.
  destruct locals as [[cfg|] vars].
  2:{ exists ∅, 0, call0, 1, []. repeat split; try done; simpl; lia. }
  cbv [_run_ps _run_worker entry_point_run logger_info read_local lift emit
       raise mbind mret M_bind M_ret local_tf_config].
  cbn [trace probes].
  set (call := EntryPointCall _ _ _ (<["TF_CONFIG" := EnvJson cfg]> _) _ _).
  assert (Hvars : ∀ cfg', Some cfg = Some cfg' →
            env_vars call !! "TF_CONFIG" = Some (EnvJson cfg')).
  { intros cfg' [= <-]. apply lookup_insert_eq. }
  destruct (py_index (current_host env) (hosts env)) as [idx|e].
  2:{ exists ∅, 0, call0, 2, []. cbn [fst trace take ps_run_events].
      rewrite <- !app_assoc. repeat split; try done; lia. }
  destruct (tf_server_outcome w (cluster cfg) idx) as [e|].
  { exists (cluster cfg), idx, call0, 3, []. cbn [fst trace take ps_run_events].
    rewrite <- !app_assoc. repeat split; try done; lia. }
  destruct (entry_point_outcome w call) as [e|].
  { exists (cluster cfg), idx, call, 6, []. cbn [fst trace take ps_run_events].
    rewrite <- !app_assoc. repeat split; try done; try lia. auto. }
  rewrite Hhosts. unfold _is_host_master, py_first.
  cbv [mbind mret result_bind result_ret]. cbn [trace probes].
  case_bool_decide as Hm; cbn [negb].
  - exists (cluster cfg), idx, call, 7, []. cbn [fst trace take ps_run_events].
    rewrite <- !app_assoc. repeat split; try done; try lia. auto.
  - match goal with
    | |- context [_wait_until_master_is_down w fuel h0 ?s0] =>
        destruct (wait_trace_shape w h0 fuel s0) as (ext & Hext & Hall)
    end.
    exists (cluster cfg), idx, call, 7, ext.
    rewrite Hext. cbn [trace take ps_run_events]. rewrite <- !app_assoc.
    repeat split; try done; try lia. auto.
Qed.

Lemma train_setup_spec env s :
  train_setup env s =
  let vars : gmap string env_value := EnvStr <$> to_env_vars env in
  if in_distribution_groups env then
    if truthy (parameter_server_enabled env) then
      match _build_tf_config_for_ps (distribution_hosts env) (current_host env) false with
      | Ok cfg => (State (trace s ++ [EvLog INFO msg_running_ps []]) (probes s),
                   Some (Ok (Locals (Some cfg) vars)))
      | Raise e => (s, Some (Raise e))
      end
    else if truthy (multi_worker_mirrored_strategy_enabled env) then
      match _build_tf_config_for_mwms (distribution_hosts env) (current_host env) with
      | Ok cfg => (State (trace s ++ [EvLog INFO msg_running_mwms []]) (probes s),
                   Some (Ok (Locals None (<["TF_CONFIG" := EnvJson cfg]> vars))))
      | Raise e => (s, Some (Raise e))
      end
    else (s, Some (Ok (Locals None vars)))
  else (s, Some (Ok (Locals None vars))).
Proof.
  unfold train_setup. cbv zeta.
  destruct (in_distribution_groups env); [|done].
  destruct (truthy (parameter_server_enabled env)).
  - by destruct (_build_tf_config_for_ps _ _ _).
  - destruct (truthy (multi_worker_mirrored_strategy_enabled env)); [|done].
    by destruct (_build_tf_config_for_mwms _ _).
Qed.

Lemma train_ps_trace_shape w fuel env cmd_args :
  truthy (parameter_server_enabled env) = true →
  ∃ h0 S0 cl idx call n ext,
    hosts env !! 0 = Some h0 ∧
    Forall is_log S0 ∧
    (ext ≠ [] → 7 ≤ n) ∧
    Forall (wait_event h0) ext ∧
    (current_host env = h0 → ext = []) ∧
    trace (train w fuel env cmd_args initial_state).1 =
      S0 ++ take n (ps_run_events cl idx call) ++ ext.
Proof.
  intros Hps.
  pose proof Hps as [_ Hlen]%parameter_server_enabled_iff.
  destruct (hosts env) as [|h0 rest] eqn:Hhosts; [simpl in Hlen; lia|].
  exists h0.
  unfold train, mbind at 1, M_bind. rewrite train_setup_spec. cbv zeta.
  rewrite Hps.
  assert (Hrun : ∀ locals S0, Forall is_log S0 →
    ∃ S1 cl idx call n ext,
      (h0 :: rest) !! 0 = Some h0 ∧ Forall is_log S1 ∧ (ext ≠ [] → 7 ≤ n) ∧
      Forall (wait_event h0) ext ∧ (current_host env = h0 → ext = []) ∧
      trace (train_run w fuel env cmd_args locals (State S0 0)).1 =
        S1 ++ take n (ps_run_events cl idx call) ++ ext).
  { intros locals S0 HS0.
    destruct (train_run_ps_trace_shape w fuel env cmd_args locals (State S0 0) h0 rest)
      as (cl & idx & call & n & ext & _ & Hn & Hext & Hm & _ & _ & Htr); [done..|].
    by exists S0, cl, idx, call, n, ext. }
  destruct (in_distribution_groups env).
  - destruct (_build_tf_config_for_ps _ _ _) as [cfg|e].
    + apply Hrun. by repeat constructor.
    + exists [], ∅, 0,
        (EntryPointCall (module_dir env) (env_user_entry_point env)
           cmd_args ∅ true ProcessRunnerType), 0, [].
      repeat split; done.
  - apply Hrun. constructor.
Qed.

(** C5.  In the parameter-server branch, whatever the environment and the
    collaborators do: the entry point of the worker is run only after the
    parameter server was created and its process started; a liveness
    probe is made only after the worker run returned, it probes the first
    host, and only on a host that is not the first one; on the master no
    probe is ever made. *)
Theorem train_ps_branch_order w fuel env cmd_args :
  truthy (parameter_server_enabled env) = true →
  let tr := trace (train w fuel env cmd_args initial_state).1 in
  (∀ pre call post,
     tr = pre ++ EvEntryPointRun call :: post →
     ∃ cl idx pre1 pre2,
       pre = pre1 ++ EvTfServer cl "ps" idx 0 :: EvProcessStart :: pre2) ∧
  (∀ pre cmd post,
     tr = pre ++ EvCheckCall cmd :: post →
     (∃ call pre1 pre2,
        pre = pre1 ++ EvEntryPointRun call :: EvEntryPointReturn :: pre2) ∧
     ∃ h0, hosts env !! 0 = Some h0 ∧ cmd = curl_master h0 ∧
           current_host env ≠ h0) ∧
  (hosts env !! 0 = Some (current_host env) → ∀ cmd, EvCheckCall cmd ∉ tr).
Proof.
  intros Hps tr.
  destruct (train_ps_trace_shape w fuel env cmd_args Hps)
    as (h0 & S0 & cl & idx & call & n & ext & Hh0 & HS0 & Hn & Hext & Hm & Htr).
  fold tr in Htr.
  assert (∃ k, S0 ++ ps_run_events cl idx call ++ ext = tr ++ k) as [k Hk].
  { rewrite Htr. destruct ext as [|e ext].
    - exists (drop n (ps_run_events cl idx call)).
      by rewrite !app_nil_r, <- app_assoc, take_drop.
    - exists []. rewrite take_ge by (simpl; auto). by rewrite app_nil_r. }
  clear Htr.
  assert (Hprobe : ∀ pre cmd post,
     tr = pre ++ EvCheckCall cmd :: post →
     (∃ call pre1 pre2,
        pre = pre1 ++ EvEntryPointRun call :: EvEntryPointReturn :: pre2) ∧
     cmd = curl_master h0 ∧ current_host env ≠ h0).
  { intros pre cmd post Htr. rewrite Htr, <- app_assoc, <- app_comm_cons in Hk.
    symmetry in Hk.
    apply app_cons_eq_app_inv in Hk as [[m ->]|(m & -> & Hk)].
    { apply Forall_app in HS0 as [_ HS0]. by inversion HS0. }
    apply app_cons_eq_app_inv in Hk as [[m' Hk]|(m' & -> & Hk)].
    { unfold ps_run_events in Hk.
      repeat (destruct m as [|? m]; simplify_eq/=). }
    split.
    - exists call, (S0 ++ take 5 (ps_run_events cl idx call)), m'.
      by rewrite <- !app_assoc.
    - subst ext. apply Forall_app in Hext as [_ Hext].
      inversion Hext as [|? ? Hc _]; subst. split; [done|].
      intros Heq. specialize (Hm Heq). by destruct m'. }
  split; [|split].
  - intros pre c post Htr. rewrite Htr, <- app_assoc, <- app_comm_cons in Hk.
    symmetry in Hk.
    apply app_cons_eq_app_inv in Hk as [[m ->]|(m & -> & Hk)].
    { apply Forall_app in HS0 as [_ HS0]. by inversion HS0. }
    apply app_cons_eq_app_inv in Hk as [[m' Hk]|(m' & -> & Hk)].
    + unfold ps_run_events in Hk.
      repeat (destruct m as [|? m]; simplify_eq/=).
      exists cl, idx, (S0 ++ take 2 (ps_run_events cl idx c)),
             [EvLog INFO msg_launching_worker []].
      by rewrite <- !app_assoc.
    + subst ext. apply Forall_app in Hext as [_ Hext]. by inversion Hext.
  - intros pre cmd post Htr. destruct (Hprobe _ _ _ Htr) as (Hret & Hcmd & Hne).
    split; [done|]. by exists h0.
  - intros Hmaster cmd Hin. apply list_elem_of_split in Hin as (pre & post & Htr).
    destruct (Hprobe _ _ _ Htr) as (_ & _ & Hne). congruence.
Qed.

Lemma build_tf_config_for_mwms_ok (dist : list string) (cur : string) :
  cur ∈ dist → ∃ cfg, _build_tf_config_for_mwms dist cur = Ok cfg.
Proof.
  intros Hin. unfold _build_tf_config_for_mwms.
  destruct (py_index_elem_of _ _ Hin) as (i & -> & _). simpl. eauto.
Qed.

Lemma train_non_ps_run w fuel env cmd_args :
  truthy (parameter_server_enabled env) = false →
  env_wf env →
  ∃ S0 call,
    (S0 = [] ∨ S0 = [EvLog INFO msg_running_mwms []]) ∧
    train w fuel env cmd_args initial_state =
      match entry_point_outcome w call with
      | None => (State (S0 ++ [EvEntryPointRun call; EvEntryPointReturn]) 0,
                 Some (Ok ()))
      | Some e => (State (S0 ++ [EvEntryPointRun call]) 0, Some (Raise e))
      end ∧
    uri call = module_dir env ∧
    user_entry_point call = env_user_entry_point env ∧
    args call = cmd_args ∧
    capture_error call = true ∧
    (in_distribution_groups env = true → truthy (mpi_flag env) = true →
       runner_type call = MPIRunnerType) ∧
    (in_distribution_groups env = true → truthy (mpi_flag env) = false →
       truthy (sagemaker_distributed_dataparallel_enabled env) = true →
       runner_type call = SMDataParallelRunnerType) ∧
    ((truthy (mpi_flag env) = false ∧
      truthy (sagemaker_distributed_dataparallel_enabled env) = false)
     ∨ in_distribution_groups env = false →
       runner_type call = ProcessRunnerType).
Proof.
  intros Hps Hwf.
  assert (Hrun : ∀ locals S0,
    (S0 = [] ∨ S0 = [EvLog INFO msg_running_mwms []]) →
    ∃ S1 call,
      (S1 = [] ∨ S1 = [EvLog INFO msg_running_mwms []]) ∧
      train_run w fuel env cmd_args locals (State S0 0) =
        match entry_point_outcome w call with
        | None => (State (S1 ++ [EvEntryPointRun call; EvEntryPointReturn]) 0,
                   Some (Ok ()))
        | Some e => (State (S1 ++ [EvEntryPointRun call]) 0, Some (Raise e))
        end ∧
      uri call = module_dir env ∧
      user_entry_point call = env_user_entry_point env ∧
      args call = cmd_args ∧
      capture_error call = true ∧
      (in_distribution_groups env = true → truthy (mpi_flag env) = true →
         runner_type call = MPIRunnerType) ∧
      (in_distribution_groups env = true → truthy (mpi_flag env) = false →
         truthy (sagemaker_distributed_dataparallel_enabled env) = true →
         runner_type call = SMDataParallelRunnerType) ∧
      ((truthy (mpi_flag env) = false ∧
        truthy (sagemaker_distributed_dataparallel_enabled env) = false)
       ∨ in_distribution_groups env = false →
         runner_type call = ProcessRunnerType)).
  { intros locals S0 HS0. unfold train_run. rewrite Hps. cbv zeta.
    fold (mpi_flag env).
    set (call := EntryPointCall _ _ _ _ _ _).
    exists S0, call. split; [done|]. split.
    { unfold entry_point_run, mbind, M_bind, emit, raise. cbn [trace probes].
      destruct (entry_point_outcome w call); [done|].
      cbn [trace probes]. by rewrite <- app_assoc. }
    repeat split; try done; unfold call; cbn [runner_type].
    - by intros -> ->.
    - by intros -> -> ->.
    - intros [[-> ->] | ->]; [|done]. by destruct (in_distribution_groups env). }
  unfold train, mbind at 1, M_bind. rewrite train_setup_spec. cbv zeta.
  rewrite Hps.
  destruct (in_distribution_groups env) eqn:Hg; [|apply Hrun; by left].
  destruct (truthy (multi_worker_mirrored_strategy_enabled env));
    [|apply Hrun; by left].
  destruct (build_tf_config_for_mwms_ok _ _ (Hwf Hg)) as [cfg ->].
  apply Hrun. by right.
Qed.

(** C7.  In the branch of the run phase that is not the
    parameter-server one, whatever the locals and the state that the
    setup phase left: the entry point is run exactly once and waited for;
    the trace grows by the call, and by its return when it returns; an
    exception of the entry point is the exception of the branch; and
    [train] is this branch as soon as its setup phase has returned.  The
    runner of the call is the MPI runner when the instance group takes
    part in the distribution and the MPI flag is set, the data-parallel
    runner when the group takes part, the MPI flag is not set and the
    data-parallel flag is, and the plain process runner when neither flag
    is set or the group does not take part. *)
Theorem train_runner_selection w fuel env cmd_args locals s :
  truthy (parameter_server_enabled env) = false →
  ∃ call,
    train_run w fuel env cmd_args locals s =
      match entry_point_outcome w call with
      | None =>
          (State (trace s ++ [EvEntryPointRun call; EvEntryPointReturn]) (probes s),
           Some (Ok ()))
      | Some e =>
          (State (trace s ++ [EvEntryPointRun call]) (probes s), Some (Raise e))
      end ∧
    (∀ s0, train_setup env s0 = (s, Some (Ok locals)) →
           train w fuel env cmd_args s0 = train_run w fuel env cmd_args locals s) ∧
    uri call = module_dir env ∧
    user_entry_point call = env_user_entry_point env ∧
    args call = cmd_args ∧
    env_vars call = local_env_vars locals ∧
    capture_error call = true ∧
    (in_distribution_groups env = true → truthy (mpi_flag env) = true →
       runner_type call = MPIRunnerType) ∧
    (in_distribution_groups env = true → truthy (mpi_flag env) = false →
       truthy (sagemaker_distributed_dataparallel_enabled env) = true →
       runner_type call = SMDataParallelRunnerType) ∧
    ((truthy (mpi_flag env) = false ∧
      truthy (sagemaker_distributed_dataparallel_enabled env) = false)
     ∨ in_distribution_groups env = false →
       runner_type call = ProcessRunnerType).
Proof.
  intros Hps. unfold train_run. rewrite Hps. cbv zeta. fold (mpi_flag env).
  set (call := EntryPointCall _ _ _ _ _ _).
  exists call. split.
  { unfold entry_point_run, mbind, M_bind, emit, raise. cbn [trace probes].
    destruct (entry_point_outcome w call); [done|].
    cbn [trace probes]. by rewrite <- app_assoc. }
  split.
  { intros s0 Hsetup. unfold train, mbind at 1, M_bind. rewrite Hsetup.
    unfold train_run. by rewrite Hps. }
  repeat split; try done; unfold call; cbn [runner_type].
  - by intros -> ->.
  - by intros -> -> ->.
  - intros [[-> ->] | ->]; [|done]. by destruct (in_distribution_groups env).
Qed.

Lemma msg_running_mwms_not_in_ps_trace (S0 ext : list event) cl idx call n h0 :
  (S0 = [] ∨ S0 = [EvLog INFO msg_running_ps []]) →
  Forall (wait_event h0) ext →
  EvLog INFO msg_running_mwms [] ∉ S0 ++ take n (ps_run_events cl idx call) ++ ext.
Proof.
  intros HS0 Hext Hin.
  apply elem_of_app in Hin as [Hin|Hin].
  { destruct HS0 as [-> | ->]; [by apply elem_of_nil in Hin|].
    apply list_elem_of_singleton in Hin. discriminate Hin. }
  apply elem_of_app in Hin as [Hin|Hin].
  - apply (subseteq_take n) in Hin. unfold ps_run_events in Hin.
    repeat (apply elem_of_cons in Hin as [Hin|Hin]; [discriminate Hin|]).
    by apply elem_of_nil in Hin.
  - rewrite Forall_forall in Hext. apply Hext in Hin as (_ & [=] & _).
Qed.

(** Where the claim on the precedence of the parameter server holds.  In
    a consistent environment the run phase
    takes the parameter-server branch exactly when the parameter-server
    flag is set and there is more than one host.  When moreover the
    multi-worker-mirrored flag is set too, the branch taken is still the
    parameter-server one and the multi-worker-mirrored configuration is
    never injected: its log line is absent and any entry-point call
    carries the parameter-server topology as [TF_CONFIG].  The setup phase
    builds that topology, from the distribution hosts, when the instance
    group of the current host takes part in the distribution. *)
Lemma train_parameter_server_precedence w fuel env cmd_args :
  env_wf env →
  let tr := trace (train w fuel env cmd_args initial_state).1 in
  (EvLog INFO msg_launching_ps [] ∈ tr ↔
     truthy (ps_flag env) = true ∧ 1 < length (hosts env)) ∧
  (truthy (ps_flag env) = true → 1 < length (hosts env) →
   truthy (multi_worker_mirrored_strategy_enabled env) = true →
     EvLog INFO msg_launching_ps [] ∈ tr ∧
     (EvLog INFO msg_running_mwms [] ∉ tr) ∧
     (∀ call, EvEntryPointRun call ∈ tr →
        ∃ cfg, _build_tf_config_for_ps (distribution_hosts env)
                 (current_host env) false = Ok cfg ∧
               env_vars call !! "TF_CONFIG" = Some (EnvJson cfg)) ∧
     (in_distribution_groups env = true →
        ∃ cfg, _build_tf_config_for_ps (distribution_hosts env)
                 (current_host env) false = Ok cfg ∧
               train_setup env initial_state =
                 (State [EvLog INFO msg_running_ps []] 0,
                  Some (Ok (Locals (Some cfg) (EnvStr <$> to_env_vars env)))))).
Proof.
  intros Hwf tr.
  assert (Hon : truthy (parameter_server_enabled env) = true →
    EvLog INFO msg_launching_ps [] ∈ tr ∧
    (EvLog INFO msg_running_mwms [] ∉ tr) ∧
    (∀ call, EvEntryPointRun call ∈ tr →
       ∃ cfg, _build_tf_config_for_ps (distribution_hosts env)
                (current_host env) false = Ok cfg ∧
              env_vars call !! "TF_CONFIG" = Some (EnvJson cfg)) ∧
    (in_distribution_groups env = true →
       ∃ cfg, _build_tf_config_for_ps (distribution_hosts env)
                (current_host env) false = Ok cfg ∧
              train_setup env initial_state =
                (State [EvLog INFO msg_running_ps []] 0,
                 Some (Ok (Locals (Some cfg) (EnvStr <$> to_env_vars env)))))).
  { intros Hps.
    pose proof Hps as [_ Hlen]%parameter_server_enabled_iff.
    destruct (hosts env) as [|h0 rest] eqn:Hhosts; [simpl in Hlen; lia|].
    assert (∃ S0 locals,
      train_setup env initial_state = (State S0 0, Some (Ok locals)) ∧
      (S0 = [] ∨ S0 = [EvLog INFO msg_running_ps []]) ∧
      (∀ cfg, local_tf_config locals = Some cfg →
         _build_tf_config_for_ps (distribution_hosts env)
           (current_host env) false = Ok cfg) ∧
      (in_distribution_groups env = true →
         ∃ cfg, _build_tf_config_for_ps (distribution_hosts env)
                  (current_host env) false = Ok cfg ∧
                S0 = [EvLog INFO msg_running_ps []] ∧
                locals = Locals (Some cfg) (EnvStr <$> to_env_vars env)))
      as (S0 & locals & Hsetup & HS0 & Hcfg & Hbuilt).
    { rewrite train_setup_spec. cbv zeta. rewrite Hps.
      destruct (in_distribution_groups env) eqn:Hg.
      - destruct (build_tf_config_for_ps_worker_side_ok _ _ (Hwf Hg)) as [cfg Hb].
        rewrite Hb. eexists _, _. split; [reflexivity|]. split; [by right|].
        split; [by intros ? [= <-]|]. intros _. by exists cfg.
      - eexists _, _. split; [reflexivity|]. split; [by left|]. split; done. }
    destruct (train_run_ps_trace_shape w fuel env cmd_args locals (State S0 0) h0 rest)
      as (cl & idx & call & n & ext & Hn1 & Hn & Hext & Hm & Hvars & Hnone & Htr);
      [done..|].
    assert (Htr' : tr = S0 ++ take n (ps_run_events cl idx call) ++ ext).
    { unfold tr, train, mbind at 1, M_bind. by rewrite Hsetup. }
    split; [|split; [|split]].
    - rewrite Htr'. apply elem_of_app. right. apply elem_of_app. left.
      destruct n; [lia|]. apply list_elem_of_here.
    - rewrite Htr'. by eapply msg_running_mwms_not_in_ps_trace.
    - intros c Hin. rewrite Htr' in Hin.
      apply elem_of_app in Hin as [Hin|Hin].
      { destruct HS0 as [-> | ->]; [by apply elem_of_nil in Hin|].
        apply list_elem_of_singleton in Hin. discriminate Hin. }
      apply elem_of_app in Hin as [Hin|Hin].
      2:{ rewrite Forall_forall in Hext. by apply Hext in Hin. }
      assert (6 ≤ n ∧ c = call) as [Hn6 ->].
      { unfold ps_run_events in Hin.
        do 6 (destruct n as [|n];
              [repeat (apply elem_of_cons in Hin as [Hin|Hin]; [discriminate Hin|]);
               by apply elem_of_nil in Hin|]).
        split; [lia|]. apply (subseteq_take (S (S (S (S (S (S n))))))) in Hin.
        repeat (apply elem_of_cons in Hin as [Hin|Hin]; [by simplify_eq|]).
        by apply elem_of_nil in Hin. }
      destruct (local_tf_config locals) as [cfg|] eqn:Hl.
      + exists cfg. split; [by apply Hcfg|]. by apply Hvars.
      + specialize (Hnone eq_refl). lia.
    - intros Hg. destruct (Hbuilt Hg) as (cfg & Hb & -> & ->). by exists cfg. }
  split.
  - split.
    + intros Hin. apply parameter_server_enabled_iff.
      destruct (truthy (parameter_server_enabled env)) eqn:Hps; [done|].
      exfalso.
      destruct (train_non_ps_run w fuel env cmd_args Hps Hwf)
        as (S0 & call & HS0 & Htr & _).
      unfold tr in Hin. rewrite Htr in Hin.
      assert (Hin' : EvLog INFO msg_launching_ps [] ∈
                S0 ++ [EvEntryPointRun call; EvEntryPointReturn]).
      { destruct (entry_point_outcome w call); simpl in Hin; [|done].
        apply elem_of_app in Hin as [Hin|Hin]; apply elem_of_app; [by left|].
        right. apply list_elem_of_singleton in Hin. discriminate Hin. }
      apply elem_of_app in Hin' as [Hin'|Hin'].
      * destruct HS0 as [-> | ->]; [by apply elem_of_nil in Hin'|].
        apply list_elem_of_singleton in Hin'. discriminate Hin'.
      * repeat (apply elem_of_cons in Hin' as [Hin'|Hin']; [discriminate Hin'|]).
        by apply elem_of_nil in Hin'.
    + intros Hps%parameter_server_enabled_iff. by apply Hon.
  - intros Hflag Hlen _. apply Hon. by apply parameter_server_enabled_iff.
Qed.

End Train.

(** *** The orchestrator on the example jobs *)

Lemma train_unbound_tf_config_witness :
  train (master_up_for 0) 0 env_outside_distribution [] initial_state =
    (State [EvLog INFO msg_launching_ps []] 0,
     Some (Raise (UnboundLocalError "tf_config"))).
Proof.
  apply (train_unbound_tf_config (master_up_for 0) 0 env_outside_distribution []
           initial_state).
  - reflexivity.
  - simpl. lia.
  - by apply (bool_decide_unpack _).
Defined.

(** C4.  On a heterogeneous cluster the code does not do what the
    claim says.  Both flags are set, there are two hosts, and the
    instance group of the current host is not among the distribution
    groups: the guard of the setup phase skips the topology, the run
    phase enters the parameter-server branch all the same, which has no
    such guard, and reads the unbound [tf_config].  No parameter-server
    topology is built and nothing is launched. *)
Theorem train_ps_flags_without_topology :
  truthy (ps_flag env_outside_distribution) = true ∧
  truthy (multi_worker_mirrored_strategy_enabled env_outside_distribution) = true ∧
  length (hosts env_outside_distribution) = 2 ∧
  in_distribution_groups env_outside_distribution = false ∧
  train_setup env_outside_distribution initial_state =
    (initial_state,
     Some (Ok (Locals None (EnvStr <$> to_env_vars env_outside_distribution)))) ∧
  train (master_up_for 0) 1 env_outside_distribution [] initial_state =
    (State [EvLog INFO msg_launching_ps []] 0,
     Some (Raise (UnboundLocalError "tf_config"))).
Proof. repeat split; reflexivity. Qed.

Lemma env_in_distribution_wf : env_wf env_in_distribution.
Proof. intros _. by apply (bool_decide_unpack _). Defined.

Lemma train_parameter_server_precedence_example :
  env_wf env_in_distribution ∧
  EvLog INFO msg_launching_ps [] ∈
    trace (train (master_up_for 1) 5 env_in_distribution [] initial_state).1 ∧
  EvLog INFO msg_running_mwms [] ∉
    trace (train (master_up_for 1) 5 env_in_distribution [] initial_state).1.
Proof.
  split; [exact env_in_distribution_wf|].
  destruct (train_parameter_server_precedence (master_up_for 1) 5
              env_in_distribution [] env_in_distribution_wf) as [_ H].
  destruct H as (Hps & Hmwms & _); [reflexivity|simpl; lia|reflexivity|].
  by split.
Defined.

Lemma train_ps_branch_order_witness :
  (∃ cl call,
     trace (train (master_up_for 1) 5 env_in_distribution [] initial_state).1 =
       [EvLog INFO msg_running_ps [];
        EvLog INFO msg_launching_ps []; EvLog INFO msg_running_ps [];
        EvTfServer cl "ps" 1 0; EvProcessStart;
        EvLog INFO msg_launching_worker [];
        EvEntryPointRun call; EvEntryPointReturn;
        EvCheckCall ["curl"; "algo-1:2222"];
        EvLog INFO msg_master_up ["algo-1"]; EvSleep 10;
        EvCheckCall ["curl"; "algo-1:2222"];
        EvLog INFO msg_master_down ["algo-1"]]) ∧
  ∀ pre cmd post,
    trace (train (master_up_for 1) 5 env_in_distribution [] initial_state).1 =
      pre ++ EvCheckCall cmd :: post →
    cmd = ["curl"; "algo-1:2222"].
Proof.
  split; [eexists _, _; reflexivity|].
  intros pre cmd post Htr.
  destruct (train_ps_branch_order (master_up_for 1) 5 env_in_distribution []
              eq_refl) as (_ & Hprobe & _).
  destruct (Hprobe pre cmd post Htr) as (_ & h0 & Hh0 & -> & _).
  by injection Hh0 as <-.
Defined.

Lemma env_mpi_wf : env_wf env_mpi.
Proof. intros _. by apply (bool_decide_unpack _). Defined.

Lemma train_runner_selection_witness :
  ∃ call,
    train (master_up_for 0) 0 env_mpi ["--epochs"; "1"] initial_state =
      (State [EvEntryPointRun call; EvEntryPointReturn] 0, Some (Ok ())) ∧
    runner_type call = MPIRunnerType.
Proof.
  destruct (train_runner_selection (master_up_for 0) 0 env_mpi ["--epochs"; "1"]
              (Locals None (EnvStr <$> to_env_vars env_mpi)) initial_state eq_refl)
    as (call & Hrun & Htrain & _ & _ & _ & _ & _ & Hmpi & _).
  exists call. split.
  - rewrite (Htrain initial_state eq_refl). exact Hrun.
  - by apply Hmpi.
Defined.

(** ** The advisory check of the model directory *)

Section ModelDir.

(** [str.isdigit], whatever its table of digits. *)
Variable str_isdigit : string → bool.

Lemma tree_ind (P : tree → Prop) :
  (∀ subdirs files, Forall (λ p, P p.2) subdirs → P (Dir subdirs files)) →
  ∀ t, P t.
Proof.
  intros H. fix IH 1. intros [subdirs files]. apply H.
  induction subdirs as [|[n sub] l IHl]; constructor; [apply IH|apply IHl].
Qed.

Lemma rsplit_sep_no_sep b : has_sep b = false → rsplit_sep b = (EmptyString, b).
Proof.
  induction b as [|c b IH]; simpl; [done|].
  intros [Hc Hb]%orb_false_iff. by rewrite IH, Hc.
Qed.

Lemma rsplit_sep_app a b :
  has_sep b = false →
  rsplit_sep (a +:+ String sep b) = (a +:+ String sep EmptyString, b).
Proof.
  intros Hb. induction a as [|c a IH]; simpl.
  - by rewrite rsplit_sep_no_sep.
  - rewrite IH. by destruct a.
Qed.

Lemma str_endswith_sep_inv a :
  str_endswith_sep a = true → ∃ a0, a = a0 +:+ String sep EmptyString.
Proof.
  induction a as [|c a IH]; simpl; [done|].
  destruct a as [|c' a].
  - intros Hc. exists EmptyString. simpl. f_equal.
    unfold is_sep in Hc. apply Ascii.eqb_eq in Hc. by subst.
  - intros [a0 ->]%IH. by exists (String c a0).
Qed.

Lemma string_app_assoc (a b c : string) : (a +:+ b) +:+ c = a +:+ (b +:+ c).
Proof.
  induction a as [|x a IH]; [done|].
  change (String x ((a +:+ b) +:+ c) = String x (a +:+ b +:+ c)). by f_equal.
Qed.

Lemma os_path_split_snd p : (os_path_split p).2 = (rsplit_sep p).2.
Proof. unfold os_path_split. by destruct (rsplit_sep p). Qed.

(** The last component of [os.path.join(top, name)] is [name]. *)
Lemma os_path_split_join top name :
  has_sep name = false → (os_path_split (os_path_join top name)).2 = name.
Proof.
  intros Hn. rewrite os_path_split_snd. unfold os_path_join.
  destruct (String.prefix "/" name) eqn:Hp.
  { destruct name as [|c name]; [done|]. cbn [has_sep] in Hn.
    apply orb_false_iff in Hn as [Hc _]. cbn [String.prefix] in Hp.
    destruct (ascii_dec "/" c) as [<-|Hne]; done. }
  destruct (String.eqb top EmptyString) eqn:Ht; simpl.
  { apply String.eqb_eq in Ht as ->. simpl. by rewrite rsplit_sep_no_sep. }
  destruct (str_endswith_sep top) eqn:He.
  - apply str_endswith_sep_inv in He as [a0 ->].
    rewrite string_app_assoc.
    change (String sep EmptyString +:+ name) with (String sep name).
    by rewrite rsplit_sep_app.
  - change ("/" +:+ name) with (String sep name). by rewrite rsplit_sep_app.
Qed.

Lemma check_file_loop dirpath files : ∀ pb s,
  for_each files (check_file str_isdigit dirpath) pb s =
  (State (trace s ++
          mjoin (file_warning str_isdigit <$> ((λ f, ((os_path_split dirpath).2, f)) <$> files)))
         (probes s),
   Some (Ok (pb || existsb is_saved_model_name files))).
Proof.
  induction files as [|f files IH]; intros pb s.
  - simpl. rewrite app_nil_r, orb_false_r. by destruct s.
  - cbn [for_each]. unfold mbind at 1, M_bind.
    assert (Hf : check_file str_isdigit dirpath f pb s =
      (State (trace s ++ file_warning str_isdigit ((os_path_split dirpath).2, f)) (probes s),
       Some (Ok (pb || is_saved_model_name f)))).
    { unfold check_file, file_warning. cbn [fst snd].
      destruct (is_saved_model_name f); cbn [andb].
      - destruct (os_path_split dirpath) as [path d]. cbn [snd].
        rewrite orb_true_r.
        destruct (str_isdigit d); cbn [negb]; [|done].
        unfold mbind, M_bind, mret, M_ret. rewrite app_nil_r. by destruct s.
      - rewrite app_nil_r, orb_false_r. by destruct s. }
    rewrite Hf, IH. cbn [trace probes fmap list_fmap mjoin list_join existsb].
    by rewrite <- app_assoc, orb_assoc.
Qed.

Lemma walk_files_cons dirpath (dirnames filenames : list string) entries :
  walk_files ((dirpath, dirnames, filenames) :: entries) =
  ((λ f, ((os_path_split dirpath).2, f)) <$> filenames) ++ walk_files entries.
Proof. reflexivity. Qed.

Lemma existsb_saved_model_fmap (d : string) (files : list string) :
  existsb (λ df : string * string, is_saved_model_name df.2)
          ((λ f, (d, f)) <$> files) =
  existsb is_saved_model_name files.
Proof. induction files as [|f fs IH]; [done|]. cbn. by f_equal. Qed.

Lemma check_dir_loop entries : ∀ pb fe s,
  for_each entries (check_dir str_isdigit) (pb, fe) s =
  (State (trace s ++ mjoin (file_warning str_isdigit <$> walk_files entries)) (probes s),
   Some (Ok (pb || existsb (λ df, is_saved_model_name df.2) (walk_files entries),
             fe || negb (bool_decide (walk_files entries = []))))).
Proof.
  induction entries as [|[[dirpath dirnames] filenames] entries IH]; intros pb fe s.
  - simpl. rewrite app_nil_r, !orb_false_r. by destruct s.
  - cbn [for_each]. unfold mbind at 1, M_bind.
    unfold check_dir at 1. unfold mbind at 1, M_bind.
    rewrite check_file_loop. unfold mret, M_ret.
    rewrite IH. cbn [trace probes].
    rewrite !walk_files_cons.
    rewrite fmap_app, join_app, existsb_app, existsb_saved_model_fmap.
    rewrite <- app_assoc, !orb_assoc.
    do 4 f_equal.
    destruct filenames as [|f fs].
    + by rewrite bool_decide_eq_true_2.
    + rewrite bool_decide_eq_false_2 by done.
      rewrite fmap_cons, <- app_comm_cons.
      rewrite (bool_decide_eq_false_2 (_ :: _ = [])) by done.
      by rewrite orb_true_r.
Qed.

Lemma walk_files_os_walk t : ∀ top,
  tree_wf t = true →
  walk_files (os_walk top t) = files_by_parent (os_path_split top).2 t.
Proof.
  induction t as [subdirs files IH] using tree_ind. intros top Hwf.
  cbn [os_walk files_by_parent]. rewrite walk_files_cons.
  f_equal. cbn [tree_wf] in Hwf.
  induction subdirs as [|[n sub] l IHl]; [done|].
  apply Forall_cons in IH as [IHsub IHrest].
  apply andb_true_iff in Hwf as [[Hn Hsub]%andb_true_iff Hl].
  unfold walk_files. rewrite bind_app.
  fold (walk_files (os_walk (os_path_join top n) sub)).
  rewrite (IHsub _ Hsub), os_path_split_join by by apply negb_true_iff.
  f_equal. by apply IHl.
Qed.

(** The check as a whole: it logs the expected warnings and returns. *)
Lemma log_model_missing_warning_run model_dir fs s :
  tree_wf fs = true →
  _log_model_missing_warning str_isdigit model_dir fs s =
  (State (trace s ++ expected_warnings str_isdigit model_dir fs) (probes s), Some (Ok ())).
Proof.
  intros Hwf. unfold _log_model_missing_warning, mbind at 1, M_bind.
  rewrite check_dir_loop, walk_files_os_walk by done.
  unfold expected_warnings, final_warning. cbv zeta.
  set (parents := files_by_parent _ fs). cbn [orb].
  case_bool_decide; cbn [negb].
  - unfold logger_warn, emit. cbn [trace probes]. by rewrite <- app_assoc.
  - destruct (existsb _ parents); cbn [negb].
    + unfold mret, M_ret. by rewrite app_nil_r.
    + unfold logger_warn, emit. cbn [trace probes]. by rewrite <- app_assoc.
Qed.

Lemma file_warning_template (df : string * string) e :
  e ∈ file_warning str_isdigit df → e = EvLog WARNING msg_not_numeric [df.1].
Proof.
  unfold file_warning. destruct (_ && _); [|by intros ?%elem_of_nil].
  by intros ?%list_elem_of_singleton.
Qed.

Lemma existsb_saved_model (parents : list (string * string)) d f :
  (d, f) ∈ parents → is_saved_model_name f = true →
  existsb (λ df, is_saved_model_name df.2) parents = true.
Proof.
  intros Hin Hf. induction parents as [|df l IH]; [by apply elem_of_nil in Hin|].
  apply elem_of_cons in Hin as [<-|Hin]; cbn [existsb snd].
  - by rewrite Hf.
  - rewrite IH by done. apply orb_true_r.
Qed.

(** C8.  With the model directory as a finite tree whose directory names
    are path components, and for whatever digits [str.isdigit] knows, the
    check returns normally and logs exactly the expected warnings.  The
    warning that no model artifact is saved is logged exactly when the
    tree holds no file.  Each file named saved_model.pb or
    saved_model.pbtxt that sits in a directory whose name does not pass
    [str.isdigit] gets the warning that names that directory.  When the
    tree holds a saved-model file and every file with the saved-model
    pattern in its name sits in a directory whose name passes
    [str.isdigit], nothing is logged. *)
Theorem log_model_missing_warning_spec model_dir fs :
  tree_wf fs = true →
  let parents := files_by_parent (os_path_split model_dir).2 fs in
  let out := _log_model_missing_warning str_isdigit model_dir fs initial_state in
  let tr := trace out.1 in
  out.2 = Some (Ok ()) ∧
  tr = expected_warnings str_isdigit model_dir fs ∧
  (EvLog WARNING msg_no_model_artifact [model_dir] ∈ tr ↔ parents = []) ∧
  (∀ d f, (d, f) ∈ parents →
          f = "saved_model.pb" ∨ f = "saved_model.pbtxt" →
          str_isdigit d = false →
          EvLog WARNING msg_not_numeric [d] ∈ tr) ∧
  ((∃ d f, (d, f) ∈ parents ∧ (f = "saved_model.pb" ∨ f = "saved_model.pbtxt")) →
   (∀ d f, (d, f) ∈ parents → is_saved_model_name f = true →
           str_isdigit d = true) →
   tr = []).
Proof.
  intros Hwf parents out tr.
  assert (Hout : out = (State (expected_warnings str_isdigit model_dir fs) 0, Some (Ok ()))).
  { unfold out. by rewrite log_model_missing_warning_run. }
  assert (Htr : tr = mjoin (file_warning str_isdigit <$> parents) ++ final_warning model_dir parents).
  { unfold tr. by rewrite Hout. }
  assert (Hname : ∀ f, f = "saved_model.pb" ∨ f = "saved_model.pbtxt" →
            is_saved_model_name f = true).
  { by intros f [-> | ->]. }
  split; [by rewrite Hout|]. split; [by unfold tr; rewrite Hout|].
  split; [|split].
  - rewrite Htr. unfold final_warning. split.
    + intros [Hin|Hin]%elem_of_app.
      * apply list_elem_of_join in Hin as (l & Hin & Hl).
        apply list_elem_of_fmap in Hl as (df & -> & _).
        apply file_warning_template in Hin. discriminate Hin.
      * case_bool_decide; [done|].
        destruct (existsb _ parents); [by apply elem_of_nil in Hin|].
        apply list_elem_of_singleton in Hin. discriminate Hin.
    + intros ->. simpl. apply list_elem_of_here.
  - intros d f Hin Hf Hd. rewrite Htr. apply elem_of_app. left.
    apply list_elem_of_join. exists (file_warning str_isdigit (d, f)). split.
    + unfold file_warning. cbn [fst snd]. rewrite (Hname f Hf), Hd.
      apply list_elem_of_here.
    + by apply list_elem_of_fmap_2.
  - intros (d & f & Hin & Hf) Hall. rewrite Htr.
    assert (Hnone : mjoin (file_warning str_isdigit <$> parents) = []).
    { apply join_nil, Forall_fmap, Forall_forall. intros [d' f'] Hin'.
      unfold file_warning. cbn [fst snd compose].
      destruct (is_saved_model_name f') eqn:Hf'; [|done].
      by rewrite (Hall d' f' Hin' Hf'). }
    rewrite Hnone. unfold final_warning.
    rewrite bool_decide_eq_false_2.
    + by rewrite (existsb_saved_model parents d f Hin (Hname f Hf)).
    + intros ->. by apply elem_of_nil in Hin.
Qed.

End ModelDir.

Lemma log_model_missing_warning_spec_witness :
  trace (_log_model_missing_warning ascii_isdigit MODEL_DIR tree_export initial_state).1 =
    [EvLog WARNING msg_not_numeric ["Servo"]] ∧
  trace (_log_model_missing_warning ascii_isdigit MODEL_DIR tree_numeric initial_state).1 = [] ∧
  trace (_log_model_missing_warning ascii_isdigit MODEL_DIR tree_empty initial_state).1 =
    [EvLog WARNING msg_no_model_artifact [MODEL_DIR]].
Proof.
  destruct (log_model_missing_warning_spec ascii_isdigit MODEL_DIR tree_export eq_refl)
    as (_ & Hexport & _).
  destruct (log_model_missing_warning_spec ascii_isdigit MODEL_DIR tree_numeric eq_refl)
    as (_ & _ & _ & _ & Hnumeric).
  destruct (log_model_missing_warning_spec ascii_isdigit MODEL_DIR tree_empty eq_refl)
    as (_ & Hempty & _).
  split; [by rewrite Hexport|]. split; [|by rewrite Hempty].
  apply Hnumeric.
  - exists "1", "saved_model.pb". split; [|by left].
    by apply (bool_decide_unpack _).
  - intros d f Hin. simpl in Hin.
    apply elem_of_cons in Hin as [[= -> ->]|Hin]; [done|].
    apply elem_of_cons in Hin as [[= -> ->]|Hin]; [done|].
    by apply elem_of_nil in Hin.
Defined.

(** * Further properties *)

(** ** Topology builders: errors, addresses and indices *)

Section TopologyEdges.

Implicit Types (hosts : list string) (current_host h : string).

Lemma list_index_None x hosts : list_index x hosts = None → x ∉ hosts.
Proof.
  induction hosts as [|y l IH]; simpl; [intros _; apply not_elem_of_nil|].
  case_decide as Hxy; [done|].
  destruct (list_index x l); [done|]. intros _.
  apply not_elem_of_cons. split; [done|]. by apply IH.
Qed.

Lemma py_index_Ok_iff x hosts : (∃ i, py_index x hosts = Ok i) ↔ x ∈ hosts.
Proof.
  split.
  - intros [i Hi]. unfold py_index in Hi.
    destruct (list_index x hosts) as [j|] eqn:Hj; [|done].
    apply list_index_Some in Hj as [Hj _]. by eapply list_elem_of_lookup_2.
  - intros Hin. destruct (py_index_elem_of _ _ Hin) as (i & Hi & _). eauto.
Qed.

Lemma py_index_not_elem_of x hosts :
  x ∉ hosts → py_index x hosts = Raise (ValueError "x not in list").
Proof.
  intros Hx. unfold py_index.
  destruct (list_index x hosts) as [i|] eqn:Hi; [|done].
  apply list_index_Some in Hi as [Hi _]. destruct Hx.
  by eapply list_elem_of_lookup_2.
Qed.

(** The cluster that [_build_tf_config_for_ps] puts together from the
    host list alone. *)
Lemma build_tf_config_for_ps_cluster hosts current_host ps_task cfg :
  _build_tf_config_for_ps hosts current_host ps_task = Ok cfg →
  environment cfg = "cloud" ∧
  cluster cfg =
    {[ "master" := (λ h, h +:+ ":2222") <$> take 1 hosts ]} ∪
    (if bool_decide (2 ≤ length hosts)
     then {[ "ps" := (λ h, h +:+ ":2223") <$> hosts;
             "worker" := (λ h, h +:+ ":2222") <$> drop 1 hosts ]}
     else ∅).
Proof.
  unfold _build_tf_config_for_ps. rewrite !host_addresses_fmap.
  match goal with
  | |- (?tc ≫= _) = _ → _ => destruct tc as [t|e]; [|done]
  end.
  intros [= <-]. cbn [environment cluster]. split; [done|].
  destruct hosts as [|h0 [|h1 rest]].
  - simpl. by rewrite (right_id_L ∅ (∪)).
  - simpl. by rewrite (right_id_L ∅ (∪)).
  - rewrite decide_True by (simpl; lia).
    rewrite bool_decide_eq_true_2 by (simpl; lia).
    cbn [truthy_hosts drop take default].
    apply map_eq. intros k.
    rewrite lookup_union, !lookup_insert, !lookup_singleton.
    repeat case_decide; simplify_eq; done.
Qed.

(** The three ways in which [_build_tf_config_for_ps] finds its task. *)
Lemma build_tf_config_for_ps_task hosts current_host ps_task cfg :
  _build_tf_config_for_ps hosts current_host ps_task = Ok cfg →
  (ps_task = true ∧ 2 ≤ length hosts ∧
   ∃ i, py_index current_host hosts = Ok i ∧ task cfg = Task i "ps") ∨
  (ps_task = false ∧ hosts !! 0 = Some current_host ∧
   task cfg = Task 0 "master") ∨
  (ps_task = false ∧
   ∃ h0 i, hosts !! 0 = Some h0 ∧ current_host ≠ h0 ∧
           py_index current_host (drop 1 hosts) = Ok i ∧
           task cfg = Task i "worker").
Proof.
  unfold _build_tf_config_for_ps. destruct ps_task.
  - case_decide as Hlen; [|done].
    destruct (py_index current_host hosts) as [i|e] eqn:Hi; [|done].
    intros [= <-]. left. split; [done|]. split; [lia|]. by exists i.
  - destruct hosts as [|h0 rest]; [done|].
    unfold _is_host_master. cbn [py_first mbind result_bind mret result_ret].
    case_bool_decide as Heq.
    + intros [= <-]. right. left. by subst.
    + change (drop 1 (h0 :: rest)) with rest.
      destruct (py_index current_host rest) as [i|e] eqn:Hi; [|done].
      intros [= <-]. right. right. split; [done|]. by exists h0, i.
Qed.

Lemma build_tf_config_for_ps_worker_side_raises hosts current_host :
  current_host ∉ hosts →
  ∃ e, _build_tf_config_for_ps hosts current_host false = Raise e ∧
       (e = IndexError "list index out of range" ∨ ∃ msg, e = ValueError msg).
Proof.
  intros Hnotin. destruct hosts as [|h0 rest].
  - eexists. split; [reflexivity|]. by left.
  - apply not_elem_of_cons in Hnotin as [Hh0 Hrest].
    unfold _build_tf_config_for_ps, _is_host_master.
    cbn [py_first mbind result_bind mret result_ret].
    rewrite bool_decide_eq_false_2 by done.
    change (drop 1 (h0 :: rest)) with rest.
    rewrite (py_index_not_elem_of _ _ Hrest). simpl. eauto.
Qed.

Lemma build_tf_config_for_mwms_raises hosts current_host :
  current_host ∉ hosts →
  _build_tf_config_for_mwms hosts current_host = Raise (ValueError "x not in list").
Proof.
  intros Hnotin. unfold _build_tf_config_for_mwms.
  by rewrite (py_index_not_elem_of _ _ Hnotin).
Qed.

(** X1.  The call returns a topology exactly when the current host is one of
    the hosts and, for a parameter-server task, there are at least two
    hosts. *)
Theorem build_tf_config_for_ps_returns_iff hosts current_host (ps_task : bool) :
  (∃ cfg, _build_tf_config_for_ps hosts current_host ps_task = Ok cfg) ↔
  current_host ∈ hosts ∧ (ps_task = true → 2 ≤ length hosts).
Proof.
  split.
  - intros [cfg Hb].
    apply build_tf_config_for_ps_task in Hb
      as [(-> & Hlen & i & Hi & _)|[(-> & Hh & _)|(-> & h0 & i & Hh & _ & Hi & _)]].
    + split; [|done]. apply py_index_Ok_iff. eauto.
    + split; [|done]. by eapply list_elem_of_lookup_2.
    + split; [|done]. assert (current_host ∈ drop 1 hosts) as Hin.
      { apply py_index_Ok_iff. eauto. }
      by eapply (subseteq_drop 1).
  - intros [Hin Hlen]. destruct ps_task.
    + specialize (Hlen eq_refl). unfold _build_tf_config_for_ps.
      rewrite decide_True by lia.
      destruct (py_index_elem_of _ _ Hin) as (i & -> & _). simpl. eauto.
    + by apply build_tf_config_for_ps_worker_side_ok.
Qed.

(** X2.  The errors of [_build_tf_config_for_ps]: a parameter-server task with
    fewer than two hosts is refused with the configuration error, whoever
    the current host is; without hosts the worker-side call fails on
    [hosts[0]]; and a current host that is not in a non-empty host list
    fails in [index]. *)
Theorem build_tf_config_for_ps_raises hosts current_host :
  (length hosts < 2 →
   _build_tf_config_for_ps hosts current_host true =
     Raise (ValueError
       "Cannot have a ps task if there are no parameter servers in the cluster")) ∧
  (hosts = [] →
   _build_tf_config_for_ps hosts current_host false =
     Raise (IndexError "list index out of range")) ∧
  (hosts ≠ [] → current_host ∉ hosts →
   (∃ msg, _build_tf_config_for_ps hosts current_host false = Raise (ValueError msg)) ∧
   (2 ≤ length hosts →
    ∃ msg, _build_tf_config_for_ps hosts current_host true = Raise (ValueError msg))).
Proof.
  split; [|split].
  - intros Hlen. unfold _build_tf_config_for_ps. by rewrite decide_False by lia.
  - by intros ->.
  - intros Hne Hnotin. split.
    + destruct hosts as [|h0 rest]; [done|].
      apply not_elem_of_cons in Hnotin as [Hh0 Hrest].
      unfold _build_tf_config_for_ps, _is_host_master.
      cbn [py_first mbind result_bind mret result_ret].
      rewrite bool_decide_eq_false_2 by done.
      change (drop 1 (h0 :: rest)) with rest.
      rewrite (py_index_not_elem_of _ _ Hrest). simpl. eauto.
    + intros Hlen. unfold _build_tf_config_for_ps.
      rewrite decide_True by lia.
      rewrite (py_index_not_elem_of _ _ Hnotin). simpl. eauto.
Qed.

(** X3.  Whatever topology is returned, its task names the current host: the
    address at the task index under the role of the task type is the
    current host with the port of that role, and the type is [ps] exactly
    for a parameter-server task. *)
Theorem build_tf_config_for_ps_task_address hosts current_host (ps_task : bool) cfg :
  _build_tf_config_for_ps hosts current_host ps_task = Ok cfg →
  (task_type (task cfg) = "ps" ↔ ps_task = true) ∧
  ∃ addrs,
    cluster cfg !! task_type (task cfg) = Some addrs ∧
    addrs !! task_index (task cfg) =
      Some (current_host +:+ ":" +:+ role_port (task_type (task cfg))).
Proof.
  intros Hb.
  destruct (build_tf_config_for_ps_cluster _ _ _ _ Hb) as [_ Hcl].
  assert (Hidx : ∀ l i port, py_index current_host l = Ok i →
            ((λ h, h +:+ String ":" port) <$> l) !! i =
              Some (current_host +:+ String ":" port)).
  { intros l i port Hi. unfold py_index in Hi.
    destruct (list_index current_host l) as [j|] eqn:Hj; [|done].
    injection Hi as <-. apply list_index_Some in Hj as [Hj _].
    by rewrite list_lookup_fmap, Hj. }
  apply build_tf_config_for_ps_task in Hb
    as [(-> & Hlen & i & Hi & Ht)|[(-> & Hh & Ht)|(-> & h0 & i & Hh & Hne & Hi & Ht)]];
    rewrite Ht; cbn [task_type task_index]; (split; [done|]); rewrite Hcl.
  - rewrite bool_decide_eq_true_2 by done.
    eexists. split; [|by apply (Hidx hosts i "2223")].
    rewrite lookup_union, lookup_insert, !lookup_singleton.
    repeat case_decide; simplify_eq; done.
  - eexists. split.
    + rewrite lookup_union, lookup_singleton. case_decide; [|done].
      by destruct (_ !! "master").
    + destruct hosts as [|h0 rest]; [done|]. by injection Hh as ->.
  - assert (2 ≤ length hosts) as Hlen.
    { destruct hosts as [|? [|? ?]]; simpl in *; [done|done|lia]. }
    rewrite bool_decide_eq_true_2 by done.
    eexists. split; [|by apply (Hidx (drop 1 hosts) i "2222")].
    rewrite lookup_union, lookup_insert, !lookup_singleton.
    repeat case_decide; simplify_eq; done.
Qed.

Lemma build_tf_config_for_ps_task_address_witness :
  ∃ cfg addrs,
    _build_tf_config_for_ps ["a"; "b"; "c"] "c" true = Ok cfg ∧
    task cfg = Task 2 "ps" ∧
    cluster cfg !! "ps" = Some addrs ∧
    addrs !! 2 = Some "c:2223".
Proof.
  eexists. 
  destruct (build_tf_config_for_ps_task_address ["a"; "b"; "c"] "c" true _ eq_refl)
    as (_ & addrs & Hc & Ha).
  exists addrs. split; [reflexivity|]. split; [reflexivity|]. by split.
Defined.

(** X4.  Every host of the job, whichever task it builds for, gets the same
    cluster: the cluster depends on the host list only. *)
Theorem build_tf_config_for_ps_cluster_shared hosts h1 h2 (t1 t2 : bool) cfg1 cfg2 :
  _build_tf_config_for_ps hosts h1 t1 = Ok cfg1 →
  _build_tf_config_for_ps hosts h2 t2 = Ok cfg2 →
  cluster cfg1 = cluster cfg2 ∧ environment cfg1 = environment cfg2.
Proof.
  intros [He1 Hc1]%build_tf_config_for_ps_cluster
         [He2 Hc2]%build_tf_config_for_ps_cluster.
  by rewrite Hc1, Hc2, He1, He2.
Qed.

Lemma build_tf_config_for_ps_cluster_shared_witness :
  ∃ cfg1 cfg2,
    _build_tf_config_for_ps ["a"; "b"] "a" false = Ok cfg1 ∧
    _build_tf_config_for_ps ["a"; "b"] "b" true = Ok cfg2 ∧
    cluster cfg1 = cluster cfg2.
Proof.
  eexists _, _. split; [reflexivity|]. split; [reflexivity|].
  by destruct (build_tf_config_for_ps_cluster_shared ["a"; "b"] "a" "b" false true
                 _ _ eq_refl eq_refl).
Defined.

(** X5.  On one host the two tasks are aligned: the master is parameter
    server 0, and a worker of index [i] is parameter server [i + 1]. *)
Theorem build_tf_config_for_ps_index_shift hosts current_host cfg_w cfg_ps :
  _build_tf_config_for_ps hosts current_host false = Ok cfg_w →
  _build_tf_config_for_ps hosts current_host true = Ok cfg_ps →
  task_type (task cfg_ps) = "ps" ∧
  (task_type (task cfg_w) = "master" ∧ task_index (task cfg_ps) = 0 ∨
   task_type (task cfg_w) = "worker" ∧
   task_index (task cfg_ps) = S (task_index (task cfg_w))).
Proof.
  intros Hw Hp.
  apply build_tf_config_for_ps_task in Hp
    as [(_ & Hlen & i & Hi & Htp)|[([=] & _)|([=] & _)]].
  rewrite Htp. split; [done|]. cbn [task_index].
  destruct hosts as [|h0 rest]; [simpl in Hlen; lia|].
  unfold py_index in Hi. cbn [list_index] in Hi.
  apply build_tf_config_for_ps_task in Hw
    as [([=] & _)|[(_ & Hh & Htw)|(_ & h0' & j & Hh & Hne & Hj & Htw)]];
    rewrite Htw; cbn [task_type task_index].
  - left. split; [done|]. injection Hh as ->.
    rewrite decide_True in Hi by done. by injection Hi.
  - right. split; [done|]. injection Hh as <-.
    rewrite decide_False in Hi by done.
    change (drop 1 (h0 :: rest)) with rest in Hj.
    unfold py_index in Hj. destruct (list_index current_host rest); [|done].
    injection Hj as <-. by injection Hi.
Qed.

Lemma build_tf_config_for_ps_index_shift_witness :
  ∃ cfg_w cfg_ps,
    _build_tf_config_for_ps ["a"; "b"; "c"] "c" false = Ok cfg_w ∧
    _build_tf_config_for_ps ["a"; "b"; "c"] "c" true = Ok cfg_ps ∧
    task cfg_w = Task 1 "worker" ∧ task cfg_ps = Task 2 "ps".
Proof.
  eexists _, _. split; [reflexivity|]. split; [reflexivity|].
  destruct (build_tf_config_for_ps_index_shift ["a"; "b"; "c"] "c" _ _
              eq_refl eq_refl) as [_ _].
  by split.
Defined.

(** X6.  The multi-worker-mirrored topology is returned exactly for a current
    host of the host list; any other current host, and the empty list,
    fail in [index]. *)
Theorem build_tf_config_for_mwms_returns_iff hosts current_host :
  ((∃ cfg, _build_tf_config_for_mwms hosts current_host = Ok cfg) ↔
   current_host ∈ hosts) ∧
  ((∃ msg, _build_tf_config_for_mwms hosts current_host = Raise (ValueError msg)) ↔
   current_host ∉ hosts).
Proof.
  pose proof (build_tf_config_for_mwms_raises hosts current_host) as Hno.
  split; split.
  - intros [cfg Hb]. destruct (decide (current_host ∈ hosts)) as [|Hn]; [done|].
    by rewrite (Hno Hn) in Hb.
  - apply build_tf_config_for_mwms_ok.
  - intros [msg Hb] Hin.
    destruct (build_tf_config_for_mwms_ok _ _ Hin) as [cfg Hc]. congruence.
  - intros Hn. rewrite (Hno Hn). eauto.
Qed.

(** X7.  The multi-worker-mirrored task names the current host too: the worker
    address at the task index is the current host at port 8890. *)
Theorem build_tf_config_for_mwms_task_address hosts current_host cfg :
  _build_tf_config_for_mwms hosts current_host = Ok cfg →
  task_type (task cfg) = "worker" ∧
  ∃ addrs,
    cluster cfg !! "worker" = Some addrs ∧
    length addrs = length hosts ∧
    addrs !! task_index (task cfg) = Some (current_host +:+ ":8890").
Proof.
  unfold _build_tf_config_for_mwms, py_index.
  destruct (list_index current_host hosts) as [i|] eqn:Hi; [|done].
  intros [= <-]. cbn [task cluster task_type task_index]. split; [done|].
  rewrite host_addresses_fmap. eexists. split; [apply lookup_insert_eq|].
  split; [apply length_fmap|].
  apply list_index_Some in Hi as [Hi _]. by rewrite list_lookup_fmap, Hi.
Qed.

Lemma build_tf_config_for_mwms_task_address_witness :
  ∃ cfg addrs,
    _build_tf_config_for_mwms ["a"; "b"; "c"] "c" = Ok cfg ∧
    cluster cfg !! "worker" = Some addrs ∧
    addrs !! task_index (task cfg) = Some "c:8890".
Proof.
  eexists.
  destruct (build_tf_config_for_mwms_task_address ["a"; "b"; "c"] "c" _ eq_refl)
    as (_ & addrs & Hc & _ & Ha).
  exists addrs. by split.
Defined.

End TopologyEdges.

(** ** The wait for the master: other failures of the probe *)

Section WaitLoopErrors.

Variable w : world.
Variable master : string.

Lemma wait_step_other_error fuel s e :
  check_call_outcome w (probes s) = Some e →
  e ≠ CalledProcessError →
  _wait_until_master_is_down w (S fuel) master s =
  (State (trace s ++ [EvCheckCall (curl_master master)]) (S (probes s)),
   Some (Raise e)).
Proof.
  intros Hout Hne. cbn [_wait_until_master_is_down].
  unfold mbind at 1, M_bind, try_except at 1.
  unfold mbind, M_bind, subprocess_check_call. rewrite Hout.
  by destruct e.
Qed.

(** X8.  Only [CalledProcessError] ends the wait normally.  When the first [N]
    probes succeed and the next one fails with any other exception (curl
    is not installed, say), the loop lets that exception through right
    after the failed probe, without the log line of a master gone down. *)
Theorem wait_until_master_is_down_other_error (N fuel : nat) (s : state) e :
  (∀ k, k < N → check_call_outcome w (probes s + k) = None) →
  check_call_outcome w (probes s + N) = Some e →
  e ≠ CalledProcessError →
  N < fuel →
  _wait_until_master_is_down w fuel master s =
    (State (trace s ++ polling_rounds master N ++ [EvCheckCall (curl_master master)])
           (probes s + S N),
     Some (Raise e)).
Proof.
  revert s fuel. induction N as [|n IH]; intros s fuel Hup Hout Hne Hfuel.
  - destruct fuel as [|fuel]; [lia|]. rewrite Nat.add_0_r in Hout.
    rewrite (wait_step_other_error _ _ e) by done.
    replace (probes s + 1) with (S (probes s)) by lia. done.
  - destruct fuel as [|fuel]; [lia|].
    rewrite wait_step_up.
    2:{ specialize (Hup 0). rewrite Nat.add_0_r in Hup. apply Hup. lia. }
    rewrite IH; cbn [trace probes]; [| | |done|lia].
    + rewrite (polling_rounds_S _ n), <- !app_assoc.
      replace (S (probes s) + S n) with (probes s + S (S n)) by lia. done.
    + intros k Hk. replace (S (probes s) + k) with (probes s + S k) by lia.
      apply Hup. lia.
    + by replace (S (probes s) + n) with (probes s + S n) by lia.
Qed.

End WaitLoopErrors.

Lemma wait_until_master_is_down_other_error_witness :
  _wait_until_master_is_down
    (World (λ _ _, None) (λ _, None)
       (λ k, if decide (k < 1) then None else Some (ExternalError "FileNotFoundError")))
    3 "algo-1" initial_state =
  (State [EvCheckCall ["curl"; "algo-1:2222"];
          EvLog INFO msg_master_up ["algo-1"]; EvSleep 10;
          EvCheckCall ["curl"; "algo-1:2222"]] 2,
   Some (Raise (ExternalError "FileNotFoundError"))).
Proof.
  apply (wait_until_master_is_down_other_error _ "algo-1" 1 3 initial_state).
  - intros k Hk. simpl. by rewrite decide_True.
  - reflexivity.
  - discriminate.
  - lia.
Defined.

(** ** The orchestrator: the parameter-server branch step by step *)

Section TrainSteps.

Implicit Types (w : world) (env : Environment) (s : state).

(** The run phase of the parameter-server branch, outcome by outcome. *)
Lemma train_run_ps_unfold w fuel env cmd_args cfg vars s h0 rest :
  truthy (parameter_server_enabled env) = true →
  hosts env = h0 :: rest →
  train_run w fuel env cmd_args (Locals (Some cfg) vars) s =
  let call := worker_call env cmd_args cfg in
  match py_index (current_host env) (hosts env) with
  | Raise e =>
      (State (trace s ++ take 2 (ps_run_events (cluster cfg) 0 call)) (probes s),
       Some (Raise e))
  | Ok idx =>
      let events := ps_run_events (cluster cfg) idx call in
      match tf_server_outcome w (cluster cfg) idx with
      | Some e => (State (trace s ++ take 3 events) (probes s), Some (Raise e))
      | None =>
          match entry_point_outcome w call with
          | Some e => (State (trace s ++ take 6 events) (probes s), Some (Raise e))
          | None =>
              if bool_decide (current_host env = h0)
              then (State (trace s ++ events) (probes s), Some (Ok ()))
              else _wait_until_master_is_down w fuel h0
                     (State (trace s ++ events) (probes s))
          end
      end
  end.
Proof.
  intros Hps Hhosts. unfold train_run. rewrite Hps.
  cbv [_run_ps _run_worker entry_point_run logger_info read_local lift emit
       raise mbind mret M_bind M_ret local_tf_config].
  cbn [trace probes]. cbv zeta. fold (worker_call env cmd_args cfg).
  destruct (py_index (current_host env) (hosts env)) as [idx|e].
  2:{ cbn [take ps_run_events]. by rewrite <- !app_assoc. }
  destruct (tf_server_outcome w (cluster cfg) idx) as [e|].
  { cbn [take ps_run_events]. by rewrite <- !app_assoc. }
  destruct (entry_point_outcome w (worker_call env cmd_args cfg)) as [e|].
  { cbn [take ps_run_events trace probes]. by rewrite <- !app_assoc. }
  rewrite Hhosts. unfold _is_host_master, py_first.
  cbv [mbind mret result_bind result_ret]. cbn [trace probes].
  unfold ps_run_events. rewrite <- !app_assoc. cbn [app].
  by case_bool_decide.
Qed.

(** [train] enters the run phase with the topology of the distribution
    hosts and the log line of the setup. *)
Lemma train_ps_setup_ok w fuel env cmd_args cfg :
  truthy (parameter_server_enabled env) = true →
  in_distribution_groups env = true →
  _build_tf_config_for_ps (distribution_hosts env) (current_host env) false = Ok cfg →
  train w fuel env cmd_args initial_state =
  train_run w fuel env cmd_args
    (Locals (Some cfg) (EnvStr <$> to_env_vars env))
    (State [EvLog INFO msg_running_ps []] 0).
Proof.
  intros Hps Hg Hb. unfold train, mbind at 1, M_bind.
  rewrite train_setup_spec. cbv zeta. by rewrite Hg, Hps, Hb.
Qed.

(** X9.  When every step succeeds, the parameter-server branch is: the setup
    log, the launch of the server for job [ps] at the position of the
    current host in [env.hosts] with the cluster of the distribution
    hosts, the worker run to its return, and then, on the first host,
    the end of [train]; on any other host [train] is from there on the
    wait for the first host. *)
Theorem train_ps_all_steps w fuel env cmd_args cfg idx h0 :
  truthy (parameter_server_enabled env) = true →
  in_distribution_groups env = true →
  _build_tf_config_for_ps (distribution_hosts env) (current_host env) false = Ok cfg →
  hosts env !! 0 = Some h0 →
  py_index (current_host env) (hosts env) = Ok idx →
  tf_server_outcome w (cluster cfg) idx = None →
  entry_point_outcome w (worker_call env cmd_args cfg) = None →
  let done_worker :=
    State (EvLog INFO msg_running_ps [] ::
           ps_run_events (cluster cfg) idx (worker_call env cmd_args cfg)) 0 in
  train w fuel env cmd_args initial_state =
    if bool_decide (current_host env = h0)
    then (done_worker, Some (Ok ()))
    else _wait_until_master_is_down w fuel h0 done_worker.
Proof.
  intros Hps Hg Hb Hh0 Hidx Hsrv Hrun.
  destruct (hosts env) as [|h0' rest] eqn:Hhosts; [done|].
  injection Hh0 as ->.
  rewrite (train_ps_setup_ok _ _ _ _ cfg) by done.
  rewrite (train_run_ps_unfold _ _ _ _ _ _ _ h0 rest) by done.
  cbv zeta. rewrite Hhosts, Hidx, Hsrv, Hrun. done.
Qed.

(** X10.  A failing worker: the exception of the entry point is the exception
    of [train]; the parameter server was started before and is left
    behind, and the wait for the master is never entered, on any host. *)
Theorem train_ps_worker_failure w fuel env cmd_args cfg idx e :
  truthy (parameter_server_enabled env) = true →
  in_distribution_groups env = true →
  _build_tf_config_for_ps (distribution_hosts env) (current_host env) false = Ok cfg →
  py_index (current_host env) (hosts env) = Ok idx →
  tf_server_outcome w (cluster cfg) idx = None →
  entry_point_outcome w (worker_call env cmd_args cfg) = Some e →
  train w fuel env cmd_args initial_state =
    (State [EvLog INFO msg_running_ps [];
            EvLog INFO msg_launching_ps []; EvLog INFO msg_running_ps [];
            EvTfServer (cluster cfg) "ps" idx 0; EvProcessStart;
            EvLog INFO msg_launching_worker [];
            EvEntryPointRun (worker_call env cmd_args cfg)] 0,
     Some (Raise e)).
Proof.
  intros Hps Hg Hb Hidx Hsrv Hrun.
  pose proof Hps as [_ Hlen]%parameter_server_enabled_iff.
  destruct (hosts env) as [|h0 rest] eqn:Hhosts; [simpl in Hlen; lia|].
  rewrite (train_ps_setup_ok _ _ _ _ cfg) by done.
  rewrite (train_run_ps_unfold _ _ _ _ _ _ _ h0 rest) by done.
  cbv zeta. rewrite Hhosts, Hidx, Hsrv, Hrun. done.
Qed.

(** X11.  A parameter server that cannot be created: [train] raises what
    [tf.distribute.Server] raised and the worker entry point is never
    run.  The same holds one step earlier when the current host is not in
    [env.hosts]: no server is created at all. *)
Theorem train_ps_server_failure w fuel env cmd_args cfg :
  truthy (parameter_server_enabled env) = true →
  in_distribution_groups env = true →
  _build_tf_config_for_ps (distribution_hosts env) (current_host env) false = Ok cfg →
  (∀ idx e,
     py_index (current_host env) (hosts env) = Ok idx →
     tf_server_outcome w (cluster cfg) idx = Some e →
     train w fuel env cmd_args initial_state =
       (State [EvLog INFO msg_running_ps [];
               EvLog INFO msg_launching_ps []; EvLog INFO msg_running_ps [];
               EvTfServer (cluster cfg) "ps" idx 0] 0,
        Some (Raise e))) ∧
  (current_host env ∉ hosts env →
   ∃ msg,
     train w fuel env cmd_args initial_state =
       (State [EvLog INFO msg_running_ps [];
               EvLog INFO msg_launching_ps []; EvLog INFO msg_running_ps []] 0,
        Some (Raise (ValueError msg)))).
Proof.
  intros Hps Hg Hb.
  pose proof Hps as [_ Hlen]%parameter_server_enabled_iff.
  destruct (hosts env) as [|h0 rest] eqn:Hhosts; [simpl in Hlen; lia|].
  rewrite (train_ps_setup_ok _ _ _ _ cfg) by done.
  rewrite (train_run_ps_unfold _ _ _ _ _ _ _ h0 rest) by done.
  cbv zeta. rewrite Hhosts. split.
  - intros idx e Hidx Hsrv. by rewrite Hidx, Hsrv.
  - intros Hnotin. rewrite (py_index_not_elem_of _ _ Hnotin). eauto.
Qed.

End TrainSteps.

Lemma train_ps_all_steps_witness :
  ∃ cfg,
    train (master_up_for 1) 5 env_in_distribution [] initial_state =
    _wait_until_master_is_down (master_up_for 1) 5 "algo-1"
      (State (EvLog INFO msg_running_ps [] ::
              ps_run_events (cluster cfg) 1
                (worker_call env_in_distribution [] cfg)) 0).
Proof.
  eexists.
  exact (train_ps_all_steps (master_up_for 1) 5 env_in_distribution [] _ 1 "algo-1"
           eq_refl eq_refl eq_refl eq_refl eq_refl eq_refl eq_refl).
Defined.

Lemma train_ps_worker_failure_witness :
  ∃ tr,
    train world_failing_worker 5 env_in_distribution [] initial_state =
    (State tr 0, Some (Raise (ExternalError "ExecuteUserScriptError"))) ∧
    tr !! 4 = Some EvProcessStart.
Proof.
  eexists. split.
  - exact (train_ps_worker_failure world_failing_worker 5 env_in_distribution
             [] _ 1 _ eq_refl eq_refl eq_refl eq_refl eq_refl eq_refl).
  - reflexivity.
Defined.

Lemma train_ps_server_failure_witness :
  ∃ tr,
    train world_failing_server 5 env_in_distribution [] initial_state =
    (State tr 0, Some (Raise (ExternalError "UnknownError"))) ∧
    length tr = 4.
Proof.
  eexists. split.
  - exact (proj1 (train_ps_server_failure world_failing_server 5
                    env_in_distribution [] _ eq_refl eq_refl eq_refl)
             1 _ eq_refl eq_refl).
  - reflexivity.
Defined.

(** ** The orchestrator: outside the parameter-server branch *)

Section TrainOtherBranch.

Implicit Types (w : world) (env : Environment) (s : state).

Lemma train_non_ps_unfold w fuel env cmd_args s :
  truthy (parameter_server_enabled env) = false →
  train w fuel env cmd_args s =
  let base : gmap string env_value := EnvStr <$> to_env_vars env in
  let run vars :=
    entry_point_run w
      (EntryPointCall (module_dir env) (env_user_entry_point env) cmd_args vars true
                      (selected_runner env)) in
  if in_distribution_groups env && truthy (multi_worker_mirrored_strategy_enabled env)
  then
    match _build_tf_config_for_mwms (distribution_hosts env) (current_host env) with
    | Ok cfg =>
        run (<[ "TF_CONFIG" := EnvJson cfg ]> base)
            (State (trace s ++ [EvLog INFO msg_running_mwms []]) (probes s))
    | Raise e => (s, Some (Raise e))
    end
  else run base s.
Proof.
  intros Hps. unfold train, mbind at 1, M_bind.
  rewrite train_setup_spec. cbv zeta. rewrite Hps.
  unfold train_run, selected_runner. rewrite Hps. fold (mpi_flag env).
  destruct (in_distribution_groups env); [|done].
  destruct (truthy (multi_worker_mirrored_strategy_enabled env)); [|done].
  cbn [andb]. by destruct (_build_tf_config_for_mwms _ _).
Qed.

(** X12.  Outside the parameter-server branch [TF_CONFIG] is injected exactly
    when the instance group takes part in the distribution and the
    multi-worker-mirrored flag is set, whatever the number of hosts and
    whatever runner is selected: the entry point then gets the environment
    variables of the environment with [TF_CONFIG] set to the
    multi-worker-mirrored topology of the distribution hosts; otherwise it
    gets the environment variables unchanged. *)
Theorem train_mwms_tf_config w fuel env cmd_args :
  truthy (parameter_server_enabled env) = false →
  let base : gmap string env_value := EnvStr <$> to_env_vars env in
  let call vars :=
    EntryPointCall (module_dir env) (env_user_entry_point env) cmd_args vars true
                   (selected_runner env) in
  (in_distribution_groups env = true →
   truthy (multi_worker_mirrored_strategy_enabled env) = true →
   ∀ cfg,
     _build_tf_config_for_mwms (distribution_hosts env) (current_host env) = Ok cfg →
     train w fuel env cmd_args initial_state =
       entry_point_run w (call (<[ "TF_CONFIG" := EnvJson cfg ]> base))
         (State [EvLog INFO msg_running_mwms []] 0)) ∧
  (in_distribution_groups env = false ∨
   truthy (multi_worker_mirrored_strategy_enabled env) = false →
   train w fuel env cmd_args initial_state =
     entry_point_run w (call base) initial_state).
Proof.
  intros Hps base call. rewrite train_non_ps_unfold by done. cbv zeta. split.
  - intros -> -> cfg ->. done.
  - intros [-> | ->]; [done|]. by rewrite andb_false_r.
Qed.

Lemma train_mwms_tf_config_witness :
  ∃ cfg,
    _build_tf_config_for_mwms ["algo-1"; "algo-2"] "algo-2" = Ok cfg ∧
    train (master_up_for 0) 0 env_mwms_mpi [] initial_state =
      (State [EvLog INFO msg_running_mwms [];
              EvEntryPointRun
                (EntryPointCall "s3://bucket/sourcedir.tar.gz" "train.py" []
                   (<[ "TF_CONFIG" := EnvJson cfg ]> ∅) true MPIRunnerType);
              EvEntryPointReturn] 0,
       Some (Ok ())).
Proof.
  eexists. split; [reflexivity|].
  destruct (train_mwms_tf_config (master_up_for 0) 0 env_mwms_mpi [] eq_refl)
    as [Hin _].
  rewrite (Hin eq_refl eq_refl _ eq_refl). reflexivity.
Defined.

(** X13.  Outside the parameter-server branch [train] never creates a server,
    starts a process, probes or sleeps, and it does not depend on the
    loop bound: it ends, with at most one entry-point run in its trace. *)
Theorem train_non_ps_events w fuel env cmd_args :
  truthy (parameter_server_enabled env) = false →
  let out := train w fuel env cmd_args initial_state in
  Forall non_ps_event (trace out.1) ∧
  probes out.1 = 0 ∧
  is_Some out.2 ∧
  out = train w 0 env cmd_args initial_state.
Proof.
  intros Hps out. unfold out. rewrite !train_non_ps_unfold by done. cbv zeta.
  assert (Hrun : ∀ call S0, Forall non_ps_event S0 →
    Forall non_ps_event (trace (entry_point_run w call (State S0 0)).1) ∧
    probes (entry_point_run w call (State S0 0)).1 = 0 ∧
    is_Some (entry_point_run w call (State S0 0)).2).
  { intros call S0 HS0. unfold entry_point_run, mbind, M_bind, emit, raise.
    cbn [trace probes].
    destruct (entry_point_outcome w call); cbn [fst snd trace probes].
    - split; [|by eauto]. apply Forall_app. split; [done|]. by repeat constructor.
    - split; [|by eauto]. rewrite <- app_assoc.
      apply Forall_app. split; [done|]. by repeat constructor. }
  destruct (_ && _).
  - destruct (_build_tf_config_for_mwms _ _) as [cfg|e].
    + destruct (Hrun (EntryPointCall (module_dir env) (env_user_entry_point env)
                        cmd_args
                        (<["TF_CONFIG" := EnvJson cfg]> (EnvStr <$> to_env_vars env))
                        true (selected_runner env))
                     [EvLog INFO msg_running_mwms []]) as (? & ? & ?);
        [by repeat constructor|done].
    + repeat split; [constructor|by eauto].
  - destruct (Hrun (EntryPointCall (module_dir env) (env_user_entry_point env)
                      cmd_args (EnvStr <$> to_env_vars env) true
                      (selected_runner env)) []) as (? & ? & ?);
      [constructor|done].
Qed.

Lemma train_non_ps_events_witness :
  (train (master_up_for 0) 7 env_mpi [] initial_state).2 = Some (Ok ()) ∧
  probes (train (master_up_for 0) 7 env_mpi [] initial_state).1 = 0.
Proof.
  destruct (train_non_ps_events (master_up_for 0) 7 env_mpi [] eq_refl)
    as (_ & Hp & _ & _).
  split; [reflexivity|exact Hp].
Defined.

(** X14.  The parameter-server flag needs two hosts: with at most one host
    [train] behaves exactly as if the flag were not there. *)
Theorem train_ps_flag_needs_two_hosts w fuel env cmd_args s :
  length (hosts env) ≤ 1 →
  train w fuel env cmd_args s =
  train w fuel
    (with_framework_parameters
       (delete SAGEMAKER_PARAMETER_SERVER_ENABLED (additional_framework_parameters env))
       env)
    cmd_args s.
Proof.
  intros Hlen.
  set (env' := with_framework_parameters _ env).
  assert (Hps : truthy (parameter_server_enabled env) = false).
  { rewrite truthy_parameter_server_enabled.
    rewrite bool_decide_eq_false_2 by lia. apply andb_false_r. }
  assert (Hps' : truthy (parameter_server_enabled env') = false).
  { rewrite truthy_parameter_server_enabled. cbn [hosts env' with_framework_parameters].
    rewrite bool_decide_eq_false_2 by lia. apply andb_false_r. }
  rewrite !train_non_ps_unfold by done. cbv zeta.
  assert (Hget : ∀ key dflt, key ≠ SAGEMAKER_PARAMETER_SERVER_ENABLED →
    dict_get (additional_framework_parameters env') key dflt =
    dict_get (additional_framework_parameters env) key dflt).
  { intros key dflt Hne. unfold dict_get.
    cbn [additional_framework_parameters env' with_framework_parameters].
    by rewrite lookup_delete_ne. }
  assert (Hmwms : multi_worker_mirrored_strategy_enabled env' =
                  multi_worker_mirrored_strategy_enabled env) by by apply Hget.
  assert (Hrt : selected_runner env' = selected_runner env).
  { unfold selected_runner, mpi_flag, sagemaker_distributed_dataparallel_enabled.
    by rewrite !Hget. }
  by rewrite Hmwms, Hrt.
Qed.

Lemma train_ps_flag_needs_two_hosts_witness :
  train (master_up_for 0) 0 env_single_host_ps [] initial_state =
  train (master_up_for 0) 0
    (with_framework_parameters ∅ env_single_host_ps) [] initial_state.
Proof.
  rewrite (train_ps_flag_needs_two_hosts (master_up_for 0) 0 env_single_host_ps []
             initial_state); [reflexivity|simpl; lia].
Defined.

(** X15.  A current host that is not among the distribution hosts, in a group
    that takes part in the distribution: the setup phase fails in the
    topology builder and [train] raises before it logs or launches
    anything. *)
Theorem train_setup_failure w fuel env cmd_args :
  in_distribution_groups env = true →
  current_host env ∉ distribution_hosts env →
  truthy (parameter_server_enabled env) = true ∨
  truthy (multi_worker_mirrored_strategy_enabled env) = true →
  ∃ e,
    train w fuel env cmd_args initial_state = (initial_state, Some (Raise e)) ∧
    (e = IndexError "list index out of range" ∨ ∃ msg, e = ValueError msg).
Proof.
  intros Hg Hnotin Hflags.
  destruct (truthy (parameter_server_enabled env)) eqn:Hps.
  - unfold train, mbind at 1, M_bind. rewrite train_setup_spec. cbv zeta.
    rewrite Hg, Hps.
    destruct (build_tf_config_for_ps_worker_side_raises _ _ Hnotin) as (e & -> & He).
    eauto.
  - destruct Hflags as [?|Hmwms]; [done|].
    rewrite train_non_ps_unfold by done. cbv zeta. rewrite Hg, Hmwms. cbn [andb].
    rewrite (build_tf_config_for_mwms_raises _ _ Hnotin). eauto.
Qed.

Lemma train_setup_failure_witness :
  ∃ e, train (master_up_for 0) 0 env_stray_host [] initial_state =
       (initial_state, Some (Raise e)).
Proof.
  destruct (train_setup_failure (master_up_for 0) 0 env_stray_host [])
    as (e & He & _).
  - reflexivity.
  - by apply (bool_decide_unpack _).
  - by left.
  - by exists e.
Defined.

End TrainOtherBranch.

(** ** The advisory check: the other warnings *)

Section ModelDirWarnings.

(** [str.isdigit], whatever its table of digits. *)
Variable str_isdigit : string → bool.

Lemma prefix_app_l (a b s : string) :
  String.prefix (a +:+ b) s = true → String.prefix a s = true.
Proof.
  revert s. induction a as [|c a IH]; intros s; [by destruct s|].
  change (String c a +:+ b) with (String c (a +:+ b)).
  destruct s as [|c' s]; cbn [String.prefix]; [done|].
  destruct (ascii_dec c c'); [apply IH|done].
Qed.

Lemma str_contains_app_l (a b s : string) :
  str_contains (a +:+ b) s = true → str_contains a s = true.
Proof.
  induction s as [|c s IH]; cbn [str_contains].
  - rewrite !orb_false_r. apply prefix_app_l.
  - intros [Hp|Hs]%orb_true_iff; apply orb_true_iff.
    + left. by eapply prefix_app_l.
    + right. by apply IH.
Qed.

(** X16.  The second test of the check is subsumed by the first: a file counts
    as a SavedModel exactly when its name contains saved_model.pb, with
    anything before or after it. *)
Theorem is_saved_model_name_contains_pb (f : string) :
  is_saved_model_name f = str_contains "saved_model.pb" f ∧
  ∀ before after,
    is_saved_model_name (before +:+ "saved_model.pb" +:+ after) = true.
Proof.
  split.
  - unfold is_saved_model_name.
    destruct (str_contains "saved_model.pbtxt" f) eqn:Htxt; [|apply orb_false_r].
    change "saved_model.pbtxt" with ("saved_model.pb" +:+ "txt") in Htxt.
    apply str_contains_app_l in Htxt. by rewrite Htxt.
  - intros before after. unfold is_saved_model_name. apply orb_true_iff. left.
    induction before as [|c before IH].
    + change (EmptyString +:+ "saved_model.pb" +:+ after)
        with ("saved_model.pb" +:+ after).
      assert (Hp : ∀ p s, String.prefix p (p +:+ s) = true).
      { intros p s. induction p as [|x p IHp]; [by destruct s|].
        change (String x p +:+ s) with (String x (p +:+ s)).
        cbn [String.prefix]. by destruct (ascii_dec x x). }
      assert (Hc : ∀ p s, String.prefix p s = true → str_contains p s = true).
      { intros p s Hps. destruct s; cbn [str_contains]; by rewrite Hps. }
      apply Hc, Hp.
    + change (String c before +:+ "saved_model.pb" +:+ after)
        with (String c (before +:+ "saved_model.pb" +:+ after)).
      cbn [str_contains]. rewrite IH. apply orb_true_r.
Qed.

Lemma join_file_warning (parents : list (string * string)) :
  mjoin (file_warning str_isdigit <$> parents) =
  (λ df, EvLog WARNING msg_not_numeric [df.1]) <$> misplaced_saved_models str_isdigit parents.
Proof.
  unfold misplaced_saved_models.
  induction parents as [|[d f] l IH]; [done|].
  rewrite fmap_cons, filter_cons.
  change (mjoin (file_warning str_isdigit (d, f) :: (file_warning str_isdigit <$> l)))
    with (file_warning str_isdigit (d, f) ++ mjoin (file_warning str_isdigit <$> l)).
  rewrite IH. unfold file_warning at 1. cbn [fst snd].
  destruct (is_saved_model_name f), (str_isdigit d); cbn [andb negb];
    case_decide as H; try done; destruct H; try done; naive_solver.
Qed.

Lemma final_warning_not_numeric model_dir parents :
  filter (λ e, is_not_numeric_warning e = true) (final_warning model_dir parents) = [].
Proof.
  unfold final_warning. case_bool_decide; [done|].
  by destruct (existsb _ parents).
Qed.

(** X17.  The warnings about a misplaced SavedModel are, in the order of the
    walk, one for each file that the check takes for a SavedModel and
    that sits in a directory whose name does not pass [str.isdigit]; each
    names that directory. *)
Theorem log_model_missing_warning_not_numeric model_dir fs :
  tree_wf fs = true →
  let parents := files_by_parent (os_path_split model_dir).2 fs in
  let tr :=
    trace (_log_model_missing_warning str_isdigit model_dir fs initial_state).1 in
  filter (λ e, is_not_numeric_warning e = true) tr =
    (λ df, EvLog WARNING msg_not_numeric [df.1]) <$>
      misplaced_saved_models str_isdigit parents ∧
  ∀ d, EvLog WARNING msg_not_numeric [d] ∈ tr ↔
       ∃ f, (d, f) ∈ parents ∧ is_saved_model_name f = true ∧ str_isdigit d = false.
Proof.
  intros Hwf parents tr.
  assert (Htr : tr = ((λ df, EvLog WARNING msg_not_numeric [df.1]) <$>
                        misplaced_saved_models str_isdigit parents) ++
                     final_warning model_dir parents).
  { unfold tr. rewrite log_model_missing_warning_run by done.
    unfold expected_warnings. cbv zeta. by rewrite join_file_warning. }
  assert (Hfilter : filter (λ e, is_not_numeric_warning e = true) tr =
            (λ df, EvLog WARNING msg_not_numeric [df.1]) <$>
              misplaced_saved_models str_isdigit parents).
  { rewrite Htr, filter_app, final_warning_not_numeric, app_nil_r.
    generalize (misplaced_saved_models str_isdigit parents). clear.
    intros l. induction l as [|df l IH]; [done|].
    rewrite fmap_cons, filter_cons, IH. rewrite decide_True; [done|].
    unfold is_not_numeric_warning. apply String.eqb_refl. }
  split; [done|]. intros d.
  assert (Hin : EvLog WARNING msg_not_numeric [d] ∈ tr ↔
                EvLog WARNING msg_not_numeric [d] ∈
                  filter (λ e, is_not_numeric_warning e = true) tr).
  { rewrite list_elem_of_filter. split; [|by intros [_ ?]].
    intros H. split; [apply String.eqb_refl|done]. }
  rewrite Hin, Hfilter, list_elem_of_fmap. unfold misplaced_saved_models. split.
  - intros ([d' f] & [= ->] & Hdf). apply list_elem_of_filter in Hdf as [[? ?] ?].
    by exists f.
  - intros (f & Hdf & Hf & Hd). exists (d, f). split; [done|].
    by apply list_elem_of_filter.
Qed.

(** X18.  The third warning, that the artifact is not in the SavedModel
    structure, is logged exactly when the tree holds files and none of
    them is taken for a SavedModel; it is then the only warning. *)
Theorem log_model_missing_warning_no_saved_model model_dir fs :
  tree_wf fs = true →
  let parents := files_by_parent (os_path_split model_dir).2 fs in
  let tr := trace (_log_model_missing_warning str_isdigit model_dir fs initial_state).1 in
  (EvLog WARNING msg_not_saved_model [] ∈ tr ↔
     parents ≠ [] ∧ ∀ d f, (d, f) ∈ parents → is_saved_model_name f = false) ∧
  (EvLog WARNING msg_not_saved_model [] ∈ tr →
     tr = [EvLog WARNING msg_not_saved_model []]).
Proof.
  intros Hwf parents tr.
  assert (Htr : tr = mjoin (file_warning str_isdigit <$> parents) ++ final_warning model_dir parents).
  { unfold tr. by rewrite log_model_missing_warning_run. }
  assert (Hnone : (∀ d f, (d, f) ∈ parents → is_saved_model_name f = false) ↔
                  existsb (λ df, is_saved_model_name df.2) parents = false).
  { split.
    - intros Hall. destruct (existsb _ parents) eqn:Hex; [|done].
      apply existsb_exists in Hex as ([d f] & Hin%list_elem_of_In & Hf).
      cbn [snd] in Hf. by rewrite (Hall d f Hin) in Hf.
    - intros Hex d f Hin. destruct (is_saved_model_name f) eqn:Hf; [|done].
      by rewrite (existsb_saved_model parents d f Hin Hf) in Hex. }
  assert (Hiff : EvLog WARNING msg_not_saved_model [] ∈ tr →
     parents ≠ [] ∧ existsb (λ df, is_saved_model_name df.2) parents = false).
  { rewrite Htr. intros [Hin|Hin]%elem_of_app.
    - apply list_elem_of_join in Hin as (l & Hin & Hl).
      apply list_elem_of_fmap in Hl as (df & -> & _).
      apply file_warning_template in Hin. discriminate Hin.
    - unfold final_warning in Hin. case_bool_decide.
      + apply list_elem_of_singleton in Hin. discriminate Hin.
      + destruct (existsb _ parents); [by apply elem_of_nil in Hin|done]. }
  assert (Hexact : parents ≠ [] →
     existsb (λ df, is_saved_model_name df.2) parents = false →
     tr = [EvLog WARNING msg_not_saved_model []]).
  { intros Hne Hex. rewrite Htr. unfold final_warning.
    rewrite bool_decide_eq_false_2, Hex by done.
    assert (mjoin (file_warning str_isdigit <$> parents) = []) as ->; [|done].
    apply join_nil, Forall_fmap, Forall_forall. intros [d f] Hin.
    unfold file_warning. cbn [fst snd compose].
    pose proof (proj2 Hnone Hex) as Hall. by rewrite (Hall d f Hin). }
  split; [split|].
  - intros [Hne Hex]%Hiff. split; [done|]. by apply Hnone.
  - intros [Hne Hall]. rewrite (Hexact Hne) by by apply Hnone.
    apply list_elem_of_here.
  - intros [Hne Hex]%Hiff. by apply Hexact.
Qed.

(** X19.  A SavedModel written directly into the model directory is flagged
    with the last component of the model directory, unless that
    component passes [str.isdigit]; for [/opt/ml/model] the component is
    [model]. *)
Theorem log_model_missing_warning_top_level model_dir subdirs files f :
  tree_wf (Dir subdirs files) = true →
  f ∈ files →
  is_saved_model_name f = true →
  str_isdigit (os_path_split model_dir).2 = false →
  EvLog WARNING msg_not_numeric [(os_path_split model_dir).2] ∈
    trace (_log_model_missing_warning str_isdigit model_dir (Dir subdirs files)
             initial_state).1.
Proof.
  intros Hwf Hf Hname Hd.
  rewrite log_model_missing_warning_run by done. cbn [trace fst].
  unfold expected_warnings. cbv zeta.
  apply elem_of_app. right. apply elem_of_app. left.
  apply list_elem_of_join. exists (file_warning str_isdigit ((os_path_split model_dir).2, f)).
  split.
  - unfold file_warning. cbn [fst snd]. rewrite Hname, Hd. apply list_elem_of_here.
  - apply list_elem_of_fmap_2. cbn [files_by_parent]. apply elem_of_app. left.
    by apply list_elem_of_fmap_2.
Qed.

End ModelDirWarnings.

Lemma log_model_missing_warning_not_numeric_witness :
  filter (λ e, is_not_numeric_warning e = true)
    (trace (_log_model_missing_warning ascii_isdigit MODEL_DIR tree_export
              initial_state).1) =
  [EvLog WARNING msg_not_numeric ["Servo"]].
Proof.
  destruct (log_model_missing_warning_not_numeric ascii_isdigit MODEL_DIR
              tree_export eq_refl) as [-> _].
  reflexivity.
Defined.

Lemma log_model_missing_warning_no_saved_model_witness :
  trace (_log_model_missing_warning ascii_isdigit MODEL_DIR
           (Dir [("checkpoints", Dir [] ["model.ckpt-100.index"])] [])
           initial_state).1 =
  [EvLog WARNING msg_not_saved_model []].
Proof.
  destruct (log_model_missing_warning_no_saved_model ascii_isdigit MODEL_DIR
              (Dir [("checkpoints", Dir [] ["model.ckpt-100.index"])] []) eq_refl)
    as [_ Hexact].
  apply Hexact. apply list_elem_of_here.
Defined.

Lemma log_model_missing_warning_top_level_witness :
  EvLog WARNING msg_not_numeric ["model"] ∈
    trace (_log_model_missing_warning ascii_isdigit MODEL_DIR
             (Dir [("variables", Dir [] [])] ["saved_model.pb"]) initial_state).1.
Proof.
  apply (log_model_missing_warning_top_level ascii_isdigit MODEL_DIR
           [("variables", Dir [] [])] ["saved_model.pb"] "saved_model.pb").
  - reflexivity.
  - apply list_elem_of_here.
  - reflexivity.
  - reflexivity.
Defined.

(** ** The model directory of a tuning job, and [main] *)

Section MainEntryPoint.

(** [str.isdigit], whatever its table of digits. *)
Variable str_isdigit : string → bool.

Lemma string_length_app (a b : string) :
  String.length (a +:+ b) = String.length a + String.length b.
Proof.
  induction a as [|c a IH]; [done|].
  change (String c a +:+ b) with (String c (a +:+ b)). cbn [String.length].
  by rewrite IH.
Qed.

Lemma string_app_inj_r (s1 s2 t : string) : s1 +:+ t = s2 +:+ t → s1 = s2.
Proof.
  revert s2. induction s1 as [|c s1 IH]; intros [|c2 s2] H.
  - done.
  - apply (f_equal String.length) in H.
    change (EmptyString +:+ t) with t in H.
    rewrite string_length_app in H. cbn [String.length] in H. lia.
  - apply (f_equal String.length) in H.
    change (EmptyString +:+ t) with t in H.
    rewrite string_length_app in H. cbn [String.length] in H. lia.
  - change (String c (s1 +:+ t) = String c2 (s2 +:+ t)) in H.
    injection H as -> H. f_equal. by apply IH.
Qed.

(** X20.  A model directory under [/opt/ml] is returned as it is, for every
    job; any other string gets [/<job name>/model] appended, so that two
    jobs with different names never share the directory. *)
Theorem model_dir_with_training_job_per_job (d : string) :
  (String.prefix "/opt/ml" d = true →
   ∀ job, _model_dir_with_training_job (PyStr d) job = Ok (PyStr d)) ∧
  (String.prefix "/opt/ml" d = false →
   ∀ job1 job2,
     _model_dir_with_training_job (PyStr d) job1 =
       Ok (PyStr (d +:+ "/" +:+ job1 +:+ "/model")) ∧
     (_model_dir_with_training_job (PyStr d) job1 =
      _model_dir_with_training_job (PyStr d) job2 → job1 = job2)).
Proof.
  assert (Hout : String.prefix "/opt/ml" d = false → ∀ job,
    _model_dir_with_training_job (PyStr d) job =
      Ok (PyStr (d +:+ "/" +:+ job +:+ "/model"))).
  { intros Hp job. unfold _model_dir_with_training_job, py_startswith.
    cbn [truthy py_str]. rewrite Hp. by destruct (negb _). }
  split.
  - intros Hp job. unfold _model_dir_with_training_job, py_startswith.
    cbn [truthy]. destruct d as [|c d]; [done|]. cbn [String.eqb negb].
    by rewrite Hp.
  - intros Hp job1 job2. split; [by apply Hout|].
    rewrite !Hout by done. intros [= H].
    apply (inj (String.append d)) in H.
    apply (inj (String.append "/")) in H.
    by apply string_app_inj_r in H.
Qed.

Lemma model_dir_with_training_job_per_job_witness :
  _model_dir_with_training_job (PyStr "s3://bucket/run") "job-7" =
    Ok (PyStr "s3://bucket/run/job-7/model") ∧
  _model_dir_with_training_job (PyStr "/opt/ml/model") "job-7" =
    Ok (PyStr "/opt/ml/model").
Proof.
  split.
  - exact (proj1 (proj2 (model_dir_with_training_job_per_job "s3://bucket/run")
                    eq_refl "job-7" "job-7")).
  - exact (proj1 (model_dir_with_training_job_per_job "/opt/ml/model") eq_refl "job-7").
Defined.

(** [main] from the state in which the hyperparameters are settled:
    configure S3, train, and check the model directory only when [train]
    has returned. *)
Lemma main_from_hyperparameters w mw fuel hps s :
  tree_wf (model_dir_tree mw) = true →
  (s3_utils_configure mw (dict_get hps "model_dir" PyNone) (sagemaker_region mw);;
   train w fuel (env_with_hyperparameters mw hps) (to_cmd_args mw hps);;
   _log_model_missing_warning str_isdigit MODEL_DIR (model_dir_tree mw)) s =
  match s3_configure_outcome mw (dict_get hps "model_dir" PyNone)
          (sagemaker_region mw) with
  | Some e => (s, Some (Raise e))
  | None =>
      let t := train w fuel (env_with_hyperparameters mw hps)
                 (to_cmd_args mw hps) s in
      match t.2 with
      | Some (Ok _) =>
          (State (trace t.1 ++ expected_warnings str_isdigit MODEL_DIR (model_dir_tree mw))
                 (probes t.1),
           Some (Ok ()))
      | _ => t
      end
  end.
Proof.
  intros Hwf. unfold mbind at 1, M_bind, s3_utils_configure.
  destruct (s3_configure_outcome mw _ _) as [e|]; [done|].
  unfold mret at 1, M_ret at 1. unfold mbind, M_bind. cbv zeta.
  destruct (train w fuel _ _ s) as [s' [[[]|e]|]]; cbn [fst snd]; [|done..].
  by rewrite log_model_missing_warning_run.
Qed.

(** X21.  Outside hyperparameter tuning [main] leaves the hyperparameters as
    they are and runs [train] on them.  The model directory is checked
    only after [train] has returned: then [main] returns with the
    warnings of the check after the trace of [train]; when [train]
    raises, or is still waiting for the master, [main] ends as [train]
    did and nothing is checked. *)
Theorem main_check_after_train w mw fuel :
  read_hyperparameters mw !! "_tuning_objective_metric" = None →
  s3_configure_outcome mw (dict_get (env_hyperparameters mw) "model_dir" PyNone)
    (sagemaker_region mw) = None →
  tree_wf (model_dir_tree mw) = true →
  let hps := env_hyperparameters mw in
  let t := train w fuel (env_with_hyperparameters mw hps) (to_cmd_args mw hps)
             initial_state in
  main str_isdigit w mw fuel initial_state =
    match t.2 with
    | Some (Ok _) =>
        (State (trace t.1 ++ expected_warnings str_isdigit MODEL_DIR (model_dir_tree mw))
               (probes t.1),
         Some (Ok ()))
    | _ => t
    end.
Proof.
  intros Htune Hs3 Hwf hps t. unfold main. cbv zeta. rewrite Htune.
  rewrite bool_decide_eq_false_2 by (by intros [? ?]).
  unfold mbind at 1, M_bind, mret at 1, M_ret at 1.
  rewrite main_from_hyperparameters by done. by rewrite Hs3.
Qed.

(** X22.  In a tuning job [main] replaces the model directory before anything
    else: the job-specific directory is logged, written into the
    hyperparameters from which the command line and the environment of
    [train] are taken, and handed to the S3 configuration.  When that
    configuration fails nothing is trained. *)
Theorem main_tuning_model_dir w mw fuel r :
  is_Some (read_hyperparameters mw !! "_tuning_objective_metric") →
  _model_dir_with_training_job
    (dict_get (read_hyperparameters mw) "model_dir" PyNone) (env_job_name mw) = Ok r →
  tree_wf (model_dir_tree mw) = true →
  let hps := <[ "model_dir" := r ]> (env_hyperparameters mw) in
  let s0 := State [EvLog INFO msg_appending_job_name [py_str r]] 0 in
  let t := train w fuel (env_with_hyperparameters mw hps) (to_cmd_args mw hps) s0 in
  main str_isdigit w mw fuel initial_state =
    match s3_configure_outcome mw r (sagemaker_region mw) with
    | Some e => (s0, Some (Raise e))
    | None =>
        match t.2 with
        | Some (Ok _) =>
            (State (trace t.1 ++ expected_warnings str_isdigit MODEL_DIR (model_dir_tree mw))
                   (probes t.1),
             Some (Ok ()))
        | _ => t
        end
    end.
Proof.
  intros Htune Hr Hwf hps s0 t. unfold main. cbv zeta.
  rewrite bool_decide_eq_true_2 by done. rewrite Hr.
  unfold mbind at 1, M_bind.
  unfold mbind at 1, M_bind, lift at 1.
  unfold mbind at 1, M_bind, logger_info at 1, emit at 1, mret at 1, M_ret at 1.
  cbn [trace probes initial_state app].
  rewrite main_from_hyperparameters by done.
  unfold dict_get. by rewrite lookup_insert_eq.
Qed.

(** X23.  A model directory that is not a string: a falsy value (no model
    directory at all, in particular) is formatted into the path, so a
    missing directory becomes [None/<job name>/model]; a truthy one has no
    [startswith] and the call raises. *)
Theorem model_dir_with_training_job_not_a_string (v : pyval) (job : string) :
  (∀ d, v ≠ PyStr d) →
  _model_dir_with_training_job v job =
    (if truthy v then Raise (ExternalError "AttributeError")
     else Ok (PyStr (py_str v +:+ "/" +:+ job +:+ "/model"))) ∧
  _model_dir_with_training_job PyNone job =
    Ok (PyStr ("None/" +:+ job +:+ "/model")).
Proof.
  intros Hv. split; [|done].
  destruct v as [|b|z|d]; [done| | |by destruct (Hv d)].
  - by destruct b.
  - unfold _model_dir_with_training_job. by destruct (truthy (PyInt z)).
Qed.

Lemma model_dir_with_training_job_not_a_string_witness :
  _model_dir_with_training_job (PyBool true) "job-7" =
    Raise (ExternalError "AttributeError") ∧
  _model_dir_with_training_job (PyInt 0) "job-7" = Ok (PyStr "0/job-7/model").
Proof.
  split.
  - exact (proj1 (model_dir_with_training_job_not_a_string (PyBool true) "job-7"
                    ltac:(discriminate))).
  - exact (proj1 (model_dir_with_training_job_not_a_string (PyInt 0) "job-7"
                    ltac:(discriminate))).
Defined.

End MainEntryPoint.

Lemma main_check_after_train_witness :
  ∃ call,
    main ascii_isdigit (master_up_for 0) main_world_plain 0 initial_state =
      (State [EvEntryPointRun call; EvEntryPointReturn] 0, Some (Ok ())) ∧
    args call = [].
Proof.
  eexists. split.
  - rewrite (main_check_after_train ascii_isdigit (master_up_for 0) main_world_plain 0
               eq_refl eq_refl eq_refl).
    reflexivity.
  - reflexivity.
Defined.

Lemma main_tuning_model_dir_witness :
  ∃ call,
    main ascii_isdigit (master_up_for 0) main_world_tuning 0 initial_state =
      (State [EvLog INFO msg_appending_job_name ["None/job-7/model"];
              EvEntryPointRun call; EvEntryPointReturn] 0,
       Some (Ok ())) ∧
    args call = ["--model_dir"; "None/job-7/model"].
Proof.
  eexists. split.
  - rewrite (main_tuning_model_dir ascii_isdigit (master_up_for 0) main_world_tuning 0
               (PyStr "None/job-7/model") ltac:(by eexists) eq_refl eq_refl).
    reflexivity.
  - reflexivity.
Defined.
